(** * service-manager-cli: the authenticated-request pipeline

    A shallow embedding of [pkg/auth/oidc/common.go] and
    [pkg/smclient/client.go], and the properties of the token-source
    selection, of the token conversions and of the response/error
    normalisation that hold of them.

    Go pointers are [option]s ([None] is [nil]), a Go result pair
    [(value, error)] is a Rocq pair of [option]s, and code that performs
    I/O threads an explicit world. *)

From Stdlib Require Import ZArith.
From stdpp Require Import base option list strings gmap.

Local Set Warnings "-register-all".
Local Open Scope string_scope.
Local Open Scope Z_scope.

(** ** Shared vocabulary *)

(** [time.Time], counted in seconds from Go's zero time, so that
    [Time.IsZero] is [t = 0]; [time.Duration] likewise. *)
Definition Time : Type := Z.
Definition Duration : Type := Z.

(** [pkg/errors]: the struct the client fills. *)
Module errors.

Record ResponseError : Type := mkResponseError {
  StatusCode : Z;
  URL : string;
  ErrorMessage : string;
  Description : string
}.

(** [ResponseError{StatusCode: code}] *)
Definition ofStatusCode (code : Z) : ResponseError :=
  {| StatusCode := code; URL := ""; ErrorMessage := ""; Description := "" |}.

(** [e.ErrorMessage = m] and [e.Description = d] *)
Definition setErrorMessage (m : string) (e : ResponseError) : ResponseError :=
  {| StatusCode := StatusCode e; URL := URL e; ErrorMessage := m;
     Description := Description e |}.

Definition setDescription (d : string) (e : ResponseError) : ResponseError :=
  {| StatusCode := StatusCode e; URL := URL e; ErrorMessage := ErrorMessage e;
     Description := d |}.

End errors.

(** A Go [error] value.  [ErrResponse] is an [errors.ResponseError],
    [ErrNew] an [errors.New(msg)], and [ErrExternal] an error handed back
    by a collaborator (transport, JSON codec, URL parser, token endpoint),
    identified by its text. *)
Inductive error : Type :=
| ErrResponse (e : errors.ResponseError)
| ErrNew (msg : string)
| ErrExternal (msg : string).

Module http.

Definition StatusOK : Z := 200.
Definition StatusCreated : Z := 201.

Inductive Method : Type := MethodGet | MethodPost | MethodPatch | MethodDelete.

Record Request : Type := mkRequest {
  ReqMethod : Method;
  ReqURL : string;
  ReqBody : option string;
  ReqHeader : list (string * string)
}.

Record Response : Type := mkResponse {
  RespStatusCode : Z;
  RespBody : string
}.

(** What [Do] and [RoundTrip] hand back: Go's [(resp, err)] with the
    [net/http] contract that a nil error comes with a non-nil response,
    and that the response is to be ignored when the error is not nil. *)
Inductive DoResult : Type :=
| DoError (err : error)
| DoResponse (resp : Response).

(** [Header.Add] *)
Definition Header_Add (k v : string) (r : Request) : Request :=
  {| ReqMethod := ReqMethod r; ReqURL := ReqURL r; ReqBody := ReqBody r;
     ReqHeader := ReqHeader r ++ [(k, v)] |}.

(** [net/url]: the error, if any, with which the URL of a new request
    fails to parse. *)
Class URLParser : Type := url_Parse_error : string -> option error.

(** [http.NewRequest] with one of the method constants above: it fails
    only when the URL does not parse. *)
Definition NewRequest `{URLParser} (method : Method) (url : string) (body : option string)
  : error + Request :=
  match url_Parse_error url with
  | Some err => inl err
  | None => inr {| ReqMethod := method; ReqURL := url; ReqBody := body; ReqHeader := [] |}
  end.

End http.

(** ** [encoding/json] and [pkg/httputil] *)
Module json.

(** A decoded JSON value as [interface{}] holds it. *)
Inductive Value : Type :=
| Null
| Bool (b : bool)
| Number (literal : string)
| String (s : string)
| Array (elems : list Value)
| Object (members : list (string * Value)).

(** [v.(string)]: the type assertion on the value found under a key of a
    [map[string]interface{}]; a missing key yields the nil interface, on
    which the assertion fails too. *)
Definition assert_string (v : option Value) : option string :=
  match v with
  | Some (String s) => Some s
  | _ => None
  end.

(** [json.Marshal] at type [R]. *)
Class Marshaler (R : Type) : Type := Marshal : R -> error + string.

End json.

Module httputil.

(** [httputil.UnmarshalResponse(resp, &v)] at type [T]: from the
    response and the value [v] holds before the call, the value it holds
    afterwards and the error returned. *)
Class Unmarshaler (T : Type) : Type :=
  UnmarshalResponse : http.Response -> T -> T * option error.

End httputil.

(** ** [pkg/auth]: the declarations the two files use *)
Module auth.

Record Options : Type := mkOptions {
  IssuerURL : string;
  ClientID : string;
  ClientSecret : string;
  AuthorizationEndpoint : string;
  TokenEndpoint : string;
  SSLDisabled : bool;
  Timeout : Duration;
  TokenBasicAuth : bool
}.

(** The four fields of [auth.Token] that the client reads and writes. *)
Record Token : Type := mkToken {
  AccessToken : string;
  RefreshToken : string;
  ExpiresIn : Time;
  TokenType : string
}.

End auth.

(** ** [golang.org/x/oauth2]: the token sources the client is built from

    The library is a dependency of the repository; its code is not among
    the sources.  The token sources that [common.go] builds with it are
    embedded as data, constructor by constructor, and what their methods
    do is modelled from sections 4.2 to 4.4 of the specification. *)
Module oauth2.

Record Token : Type := mkToken {
  AccessToken : string;
  TokenType : string;
  RefreshToken : string;
  Expiry : Time
}.

(** [var tt oauth2.Token] *)
Definition zeroToken : Token :=
  {| AccessToken := ""; TokenType := ""; RefreshToken := ""; Expiry := 0 |}.

(** The [*http.Client] stored in the context under [oauth2.HTTPClient]. *)
Record Context : Type := mkContext {
  ctxSSLDisabled : bool;
  ctxTimeout : Duration
}.

Record Endpoint : Type := mkEndpoint { AuthURL : string; TokenURL : string }.

(** [oauth2.Config] and [clientcredentials.Config], with the fields the
    source sets. *)
Record Config : Type := mkConfig {
  ClientID : string;
  ClientSecret : string;
  ConfigEndpoint : Endpoint
}.

Record CCConfig : Type := mkCCConfig {
  CCClientID : string;
  CCClientSecret : string;
  CCTokenURL : string
}.

(** A request to the token endpoint. *)
Inductive Grant : Type :=
| ClientCredentialsGrant (ctx : Context) (conf : CCConfig)
| RefreshTokenGrant (ctx : Context) (conf : Config) (refreshToken : string).

(** The three concrete [TokenSource]s involved: [reuseTokenSource] with
    its cached token [t] and fallback [new], [tokenRefresher] of
    [Config.TokenSource], and the [tokenSource] of [clientcredentials]. *)
Inductive TokenSource : Type :=
| reuseTokenSource (t : option Token) (new : TokenSource)
| tokenRefresher (ctx : Context) (conf : Config) (refreshToken : string)
| ccTokenSource (ctx : Context) (conf : CCConfig).

(** [oauth2.ReuseTokenSource]: a [reuseTokenSource] is never wrapped in
    another one. *)
Definition ReuseTokenSource (t : option Token) (src : TokenSource) : TokenSource :=
  match src with
  | reuseTokenSource t0 new0 =>
      match t with
      | None => src
      | Some _ => reuseTokenSource t new0
      end
  | _ => reuseTokenSource t src
  end.

(** [Config.TokenSource(ctx, t)] *)
Definition Config_TokenSource (ctx : Context) (c : Config) (t : option Token) : TokenSource :=
  reuseTokenSource t
    (tokenRefresher ctx c (match t with Some tk => RefreshToken tk | None => "" end)).

(** [clientcredentials.Config.TokenSource(ctx)] *)
Definition CCConfig_TokenSource (ctx : Context) (c : CCConfig) : TokenSource :=
  ReuseTokenSource None (ccTokenSource ctx c).

(** The world the token sources act on: the registry filled by
    [RegisterBrokenAuthHeaderProvider], the exchanges made with the token
    endpoint so far (newest first), and the network. *)
Record World (N : Type) : Type := mkWorld {
  brokenAuthHeaderProviders : list string;
  exchanges : list Grant;
  net : N
}.
Arguments mkWorld {N} _ _ _.
Arguments brokenAuthHeaderProviders {N} _.
Arguments exchanges {N} _.
Arguments net {N} _.

(** The parts of the library and of the outside world that stay
    abstract: when a token counts as fresh at a given instant
    ([Token.Valid]), what the token endpoint answers given the registered
    providers, and what the base transport answers to a request. *)
Class Env : Type := {
  N : Type;
  Valid : Time -> Token -> bool;
  tokenEndpoint : list string -> Grant -> N -> (error + Token) * N;
  roundTrip : http.Request -> N -> http.DoResult * N
}.

(** [oauth2.RegisterBrokenAuthHeaderProvider] *)
Definition RegisterBrokenAuthHeaderProvider `{Env} (tokenURL : string) (w : World N) : World N :=
  {| brokenAuthHeaderProviders := brokenAuthHeaderProviders w ++ [tokenURL];
     exchanges := exchanges w;
     net := net w |}.

(** Modelled from the spec: the exchange with the token endpoint is made
    by the oauth2 library.  Section 4.3: a refresh exchange obtains a new
    access token and, if the provider returns one, a new refresh token; so
    an answer without a refresh token keeps the one that was sent.  Every
    exchange is recorded in the world. *)
Definition retrieveToken `{Env} (g : Grant) (w : World N) : (error + Token) * World N :=
  let '(r, n') := tokenEndpoint (brokenAuthHeaderProviders w) g (net w) in
  let w' := {| brokenAuthHeaderProviders := brokenAuthHeaderProviders w;
               exchanges := g :: exchanges w;
               net := n' |} in
  match r, g with
  | inr tk, RefreshTokenGrant _ _ rt =>
      (inr (if String.eqb (RefreshToken tk) "" then
              {| AccessToken := AccessToken tk; TokenType := TokenType tk;
                 RefreshToken := rt; Expiry := Expiry tk |}
            else tk), w')
  | _, _ => (r, w')
  end.

(** The cached token of a [reuseTokenSource] when it can be handed out:
    there is one and it is still valid. *)
Definition cached `{Env} (now : Time) (t : option Token) : option Token :=
  match t with
  | Some tk => if Valid now tk then Some tk else None
  | None => None
  end.

(** Modelled from the spec: [TokenSource.Token()] is a method of the
    oauth2 library.  Sections 4.2 and 4.3: while the cached token is fresh
    it is returned as it is, without any network call; once it is stale,
    or when there is none, one exchange is made (with client id and secret
    for the client-credentials source, with the refresh token for the
    refresh source) and its result replaces the cached token; a failed
    exchange is returned as an error, the cache staying as it was, and no
    other strategy is tried.  A refresher left without a refresh token
    fails without an exchange.  The function gives, at instant [now], the
    result, the source as the call leaves it, and the world. *)
Fixpoint Token_ `{Env} (now : Time) (s : TokenSource) (w : World N)
  : (error + Token) * TokenSource * World N :=
  match s with
  | reuseTokenSource t new =>
      match cached now t with
      | Some tk => (inr tk, s, w)
      | None =>
          let '(r, new', w') := Token_ now new w in
          match r with
          | inl err => (inl err, reuseTokenSource t new', w')
          | inr tk => (inr tk, reuseTokenSource (Some tk) new', w')
          end
      end
  | tokenRefresher ctx conf refreshToken =>
      if String.eqb refreshToken "" then
        (inl (ErrNew "oauth2: token expired and refresh token is not set"), s, w)
      else
        let '(r, w') := retrieveToken (RefreshTokenGrant ctx conf refreshToken) w in
        match r with
        | inl err => (inl err, s, w')
        | inr tk => (inr tk, tokenRefresher ctx conf (RefreshToken tk), w')
        end
  | ccTokenSource ctx conf =>
      let '(r, w') := retrieveToken (ClientCredentialsGrant ctx conf) w in
      (r, s, w')
  end.

(** [Token.SetAuthHeader] *)
Definition SetAuthHeader (t : Token) (r : http.Request) : http.Request :=
  http.Header_Add "Authorization"
    ((if String.eqb (TokenType t) "" then "Bearer" else TokenType t) +:+ " " +:+ AccessToken t) r.

(** Modelled from the spec: the transport of the client that
    [oauth2.NewClient] builds is part of the oauth2 library.  Section 4.4:
    before dispatch it obtains the current valid token from the token
    source, attaches it as a bearer credential, delegates the call to the
    underlying transport and returns its response or error unmodified; a
    token-acquisition error is returned to the caller. *)
Definition Transport_RoundTrip `{Env} (now : Time) (src : TokenSource) (req : http.Request)
    (w : World N) : http.DoResult * TokenSource * World N :=
  let '(r, src', w') := Token_ now src w in
  match r with
  | inl err => (http.DoError err, src', w')
  | inr tk =>
      let '(res, n') := roundTrip (SetAuthHeader tk req) (net w') in
      (res, src', {| brokenAuthHeaderProviders := brokenAuthHeaderProviders w';
                     exchanges := exchanges w';
                     net := n' |})
  end.

End oauth2.

(** ** [pkg/auth/oidc/common.go] *)
Module oidc.

(** The inline conversion at the head of [NewClient]: [tt] is the zero
    [oauth2.Token] unless a token was passed. *)
Definition toOAuth2 (token : option auth.Token) : oauth2.Token :=
  match token with
  | Some tk =>
      {| oauth2.AccessToken := auth.AccessToken tk;
         oauth2.TokenType := auth.TokenType tk;
         oauth2.RefreshToken := auth.RefreshToken tk;
         oauth2.Expiry := auth.ExpiresIn tk |}
  | None => oauth2.zeroToken
  end.

(** The conversion at the end of [Client.Token]. *)
Definition fromOAuth2 (token : oauth2.Token) : auth.Token :=
  {| auth.AccessToken := oauth2.AccessToken token;
     auth.RefreshToken := oauth2.RefreshToken token;
     auth.ExpiresIn := oauth2.Expiry token;
     auth.TokenType := oauth2.TokenType token |}.

Definition refreshTokenSource (ctx : oauth2.Context) (options : auth.Options)
    (token : oauth2.Token) : oauth2.TokenSource :=
  let oauthConfig :=
    {| oauth2.ClientID := auth.ClientID options;
       oauth2.ClientSecret := auth.ClientSecret options;
       oauth2.ConfigEndpoint :=
         {| oauth2.AuthURL := auth.AuthorizationEndpoint options;
            oauth2.TokenURL := auth.TokenEndpoint options |} |} in
  oauth2.Config_TokenSource ctx oauthConfig (Some token).

Definition clientCredentialsTokenSource (ctx : oauth2.Context) (options : auth.Options)
    (token : oauth2.Token) : oauth2.TokenSource :=
  let oauthConfig :=
    {| oauth2.CCClientID := auth.ClientID options;
       oauth2.CCClientSecret := auth.ClientSecret options;
       oauth2.CCTokenURL := auth.TokenEndpoint options |} in
  let clientCredentialsSource := oauth2.CCConfig_TokenSource ctx oauthConfig in
  oauth2.ReuseTokenSource (Some token) clientCredentialsSource.

(** [Client].  The transport of [httpClient] holds the very token source
    object that [tokenSource] points to ([oauth2.NewClient] reuses a
    [reuseTokenSource] as it is), so the record stores that one object
    once, next to the timeout set on [httpClient]. *)
Record Client : Type := mkClient {
  tokenSource : oauth2.TokenSource;
  httpClientTimeout : Duration
}.

Section WithEnv.
Context `{oauth2.Env}.

Definition NewClient (options : auth.Options) (token : option auth.Token)
    (w : oauth2.World oauth2.N) : Client * oauth2.World oauth2.N :=
  let w1 :=
    if negb (auth.TokenBasicAuth options)
    then oauth2.RegisterBrokenAuthHeaderProvider (auth.IssuerURL options) w
    else w in
  let ctx :=
    {| oauth2.ctxSSLDisabled := auth.SSLDisabled options;
       oauth2.ctxTimeout := auth.Timeout options |} in
  let tt := toOAuth2 token in
  let tokenSource :=
    if match token with
       | None => true
       | Some _ => String.eqb (oauth2.RefreshToken tt) ""
       end
    then clientCredentialsTokenSource ctx options tt
    else refreshTokenSource ctx options tt in
  ({| tokenSource := tokenSource;
      httpClientTimeout := auth.Timeout options |}, w1).

(** [Client.Do] *)
Definition Do (now : Time) (c : Client) (req : http.Request) (w : oauth2.World oauth2.N)
  : http.DoResult * Client * oauth2.World oauth2.N :=
  let '(r, src', w') := oauth2.Transport_RoundTrip now (tokenSource c) req w in
  (r, {| tokenSource := src'; httpClientTimeout := httpClientTimeout c |}, w').

(** [Client.Token] *)
Definition Token (now : Time) (c : Client) (w : oauth2.World oauth2.N)
  : (option auth.Token * option error) * Client * oauth2.World oauth2.N :=
  let '(r, src', w') := oauth2.Token_ now (tokenSource c) w in
  let c' := {| tokenSource := src'; httpClientTimeout := httpClientTimeout c |} in
  match r with
  | inl err => ((None, Some err), c', w')
  | inr token => ((Some (fromOAuth2 token), None), c', w')
  end.

End WithEnv.

(** The discovery document, with the two endpoints it must carry. *)
Record openIDConfiguration : Type := mkOpenIDConfiguration {
  ConfAuthorizationEndpoint : string;
  ConfTokenEndpoint : string
}.

(** [DoRequestFunc], over the world [W] the function acts on. *)
Definition DoRequestFunc (W : Type) : Type := http.Request -> W -> http.DoResult * W.

Definition fetchOpenidConfiguration {W : Type} `{http.URLParser}
    `{!httputil.Unmarshaler (option openIDConfiguration)}
    (issuerURL : string) (readConfigurationFunc : DoRequestFunc W) (w : W)
  : (option openIDConfiguration * option error) * W :=
  match http.NewRequest http.MethodGet (issuerURL +:+ "/.well-known/openid-configuration") None with
  | inl err => ((None, Some err), w)
  | inr req =>
      let '(r, w') := readConfigurationFunc req w in
      match r with
      | http.DoError err => ((None, Some err), w')
      | http.DoResponse response =>
          if negb (http.RespStatusCode response =? http.StatusOK) then
            ((None, Some (ErrNew "unexpected status code")), w')
          else
            let '(configuration, err) := httputil.UnmarshalResponse response None in
            match err with
            | Some e => ((None, Some e), w')
            | None => ((configuration, None), w')
            end
      end
  end.

End oidc.

(** ** [pkg/query], [pkg/types]: the declarations [client.go] uses *)
Module query.

Record Parameters : Type := mkParameters {
  FieldQuery : list string;
  GeneralParams : list string
}.

End query.

Module types.

Record Info : Type := mkInfo { TokenIssuerURL : string }.

Record Broker : Type := mkBroker { Name : string }.

Record ServiceOffering (Plan : Type) : Type := mkServiceOffering {
  ID : string;
  BrokerID : string;
  BrokerName : string;
  Plans : list Plan
}.
Arguments mkServiceOffering {Plan} _ _ _ _.
Arguments ID {Plan} _.
Arguments BrokerID {Plan} _.
Arguments BrokerName {Plan} _.
Arguments Plans {Plan} _.

(** [types.ServiceOfferings] and [types.ServicePlans], each with its one
    slice field. *)
Record ServiceOfferings (Plan : Type) : Type :=
  mkServiceOfferings { ServiceOfferings_ : list (ServiceOffering Plan) }.
Arguments mkServiceOfferings {Plan} _.
Arguments ServiceOfferings_ {Plan} _.

Record ServicePlans (Plan : Type) : Type := mkServicePlans { ServicePlans_ : list Plan }.
Arguments mkServicePlans {Plan} _.
Arguments ServicePlans_ {Plan} _.

End types.

(** ** [pkg/smclient/client.go] *)
Module smclient.

(** [ClientConfig], with the fields [client.go] reads. *)
Record ClientConfig : Type := mkClientConfig {
  URL : string;
  ClientID : string;
  ClientSecret : string;
  SSLDisabled : bool
}.

(** Everything [client.go] takes from elsewhere: the [auth.Client]
    interface and its implementations, the helpers of [pkg/httputil],
    [pkg/query], [pkg/auth] and [internal/util], the URL constants of
    [web], the payload types of [pkg/types] and their JSON codecs. *)
Class Env : Type := {
  oauthEnv :: oauth2.Env;
  urlParser :: http.URLParser;
  (* auth.Client: the state of a client object is part of the world *)
  auth_Client : Type;
  Client_Do : auth_Client -> http.Request -> oauth2.World oauth2.N
              -> http.DoResult * oauth2.World oauth2.N;
  http_DefaultClient : auth_Client;
  oidc_Client : oidc.Client -> auth_Client;
  (* pkg/auth *)
  Authenticator : Type;
  auth_GetToken : option auth.Options -> option Authenticator -> oauth2.World oauth2.N
                  -> (option auth.Token * option error) * oauth2.World oauth2.N;
  (* internal/util: the Do of BuildHTTPClient(sslDisabled) with a timeout *)
  BuildHTTPClient_Do : bool -> Duration -> oidc.DoRequestFunc (oauth2.World oauth2.N);
  OpenIDStrategy : auth.Options -> Authenticator;
  (* pkg/httputil, pkg/query: Encode has a pointer receiver and is
     called on nil by GetInfo(nil) *)
  NormalizeURL : string -> string;
  Parameters_Encode : option query.Parameters -> string;
  (* web *)
  InfoURL : string;
  PlatformsURL : string;
  ServiceBrokersURL : string;
  VisibilitiesURL : string;
  ServiceOfferingsURL : string;
  ServicePlansURL : string;
  (* pkg/types *)
  DefaultInfo : types.Info;
  ServicePlan : Type;
  Platforms : Type;
  Brokers : Type;
  Visibilities : Type;
  zeroPlatforms : Platforms;
  zeroBrokers : Brokers;
  zeroVisibilities : Visibilities;
  (* codecs *)
  unmarshalContent :: httputil.Unmarshaler (gmap string json.Value);
  unmarshalConfiguration :: httputil.Unmarshaler (option oidc.openIDConfiguration);
  unmarshalInfo :: httputil.Unmarshaler types.Info;
  unmarshalPlatforms :: httputil.Unmarshaler Platforms;
  unmarshalBrokers :: httputil.Unmarshaler Brokers;
  unmarshalVisibilities :: httputil.Unmarshaler Visibilities;
  unmarshalBroker :: httputil.Unmarshaler types.Broker;
  unmarshalOfferings :: httputil.Unmarshaler (types.ServiceOfferings ServicePlan);
  unmarshalPlans :: httputil.Unmarshaler (types.ServicePlans ServicePlan)
}.

(** A call either returns or panics (a nil pointer dereference); either
    way it leaves a world behind. *)
Inductive Outcome (A : Type) : Type :=
| Return (a : A)
| Panic.
Arguments Return {A} _.
Arguments Panic {A}.

Section WithEnv.
Context `{Env}.

Definition W : Type := oauth2.World oauth2.N.

Definition M (A : Type) : Type := W -> Outcome A * W.

Definition ret {A : Type} (a : A) : M A := fun w => (Return a, w).

Definition bind {A B : Type} (m : M A) (f : A -> M B) : M B :=
  fun w =>
    match m w with
    | (Return a, w') => f a w'
    | (Panic, w') => (Panic, w')
    end.

(** Reading a field through a pointer. *)
Definition deref {A : Type} (p : option A) : M A :=
  match p with
  | Some a => ret a
  | None => fun w => (Panic, w)
  end.

(** A collaborator that cannot panic. *)
Definition lift {A : Type} (f : W -> A * W) : M A :=
  fun w => let '(a, w') := f w in (Return a, w').

Notation "'let*' x ':=' m 'in' k" := (bind m (fun x => k))
  (at level 10, x name, m at level 100, k at level 200).

Record serviceManagerClient : Type := mkServiceManagerClient {
  config : option ClientConfig;
  httpClient : option auth_Client
}.

Definition buildURL (baseURL : string) (q : option query.Parameters) : string :=
  let queryParams := Parameters_Encode q in
  if String.eqb queryParams "" then baseURL else baseURL +:+ "?" +:+ queryParams.

Definition Call (client : serviceManagerClient) (method : http.Method) (smpath : string)
    (body : option string) (q : option query.Parameters)
  : M (option http.Response * option error) :=
  let* cfg := deref (config client) in
  let fullURL := NormalizeURL (URL cfg) +:+ buildURL smpath q in
  match http.NewRequest method fullURL body with
  | inl err => ret (None, Some err)
  | inr req =>
      let req := http.Header_Add "Content-Type" "application/json" req in
      let* c := deref (httpClient client) in
      let* r := lift (Client_Do c req) in
      match r with
      | http.DoError err => ret (None, Some err)
      | http.DoResponse resp =>
          if (http.RespStatusCode resp <? 200) || (299 <? http.RespStatusCode resp) then
            let respErr :=
              {| errors.URL := fullURL;
                 errors.StatusCode := http.RespStatusCode resp;
                 errors.ErrorMessage := "";
                 errors.Description := "" |} in
            let '(respContent, err) :=
              httputil.UnmarshalResponse resp (∅ : gmap string json.Value) in
            match err with
            | Some _ => ret (Some resp, Some (ErrResponse respErr))
            | None =>
                let respErr :=
                  match json.assert_string (respContent !! "error") with
                  | Some errorMessage => errors.setErrorMessage errorMessage respErr
                  | None => respErr
                  end in
                let respErr :=
                  match json.assert_string (respContent !! "description") with
                  | Some description => errors.setDescription description respErr
                  | None => respErr
                  end in
                ret (None, Some (ErrResponse respErr))
            end
          else ret (Some resp, None)
      end
  end.

(** [NewClient] of [smclient] *)
Definition NewClient (httpClient : option auth_Client) (URL : string) : serviceManagerClient :=
  {| config := Some {| URL := URL; ClientID := ""; ClientSecret := ""; SSLDisabled := false |};
     httpClient := httpClient |}.

Definition GetInfo (client : serviceManagerClient) (q : option query.Parameters)
  : M (option types.Info * option error) :=
  let* r := Call client http.MethodGet InfoURL None q in
  let '(response, err) := r in
  match err with
  | Some e => ret (None, Some e)
  | None =>
      let* resp := deref response in
      if negb (http.RespStatusCode resp =? http.StatusOK) then
        ret (None, Some (ErrResponse (errors.ofStatusCode (http.RespStatusCode resp))))
      else
        let '(info, err) := httputil.UnmarshalResponse resp DefaultInfo in
        match err with
        | Some e => ret (None, Some e)
        | None => ret (Some info, None)
        end
  end.

(** The operations below take [result interface{}], a pointer to the
    variable to decode into: they are given the value of that variable
    and return it as the call leaves it, next to the error. *)
Definition register {R T : Type} `{!json.Marshaler R} `{!httputil.Unmarshaler T}
    (client : serviceManagerClient) (resource : R) (url : string)
    (q : option query.Parameters) (result : T) : M (T * option error) :=
  match json.Marshal resource with
  | inl err => ret (result, Some err)
  | inr requestBody =>
      let* r := Call client http.MethodPost url (Some requestBody) q in
      let '(response, err) := r in
      match err with
      | Some e => ret (result, Some e)
      | None =>
          let* resp := deref response in
          if negb (http.RespStatusCode resp =? http.StatusCreated) then
            ret (result, Some (ErrResponse (errors.ofStatusCode (http.RespStatusCode resp))))
          else ret (httputil.UnmarshalResponse resp result)
      end
  end.

Definition list {T : Type} `{!httputil.Unmarshaler T}
    (client : serviceManagerClient) (result : T) (url : string)
    (q : option query.Parameters) : M (T * option error) :=
  let* r := Call client http.MethodGet url None q in
  let '(response, err) := r in
  match err with
  | Some e => ret (result, Some e)
  | None =>
      let* resp := deref response in
      if negb (http.RespStatusCode resp =? http.StatusOK) then
        ret (result, Some (ErrResponse (errors.ofStatusCode (http.RespStatusCode resp))))
      else ret (httputil.UnmarshalResponse resp result)
  end.

Definition delete (client : serviceManagerClient) (url : string)
    (q : option query.Parameters) : M (option error) :=
  let* r := Call client http.MethodDelete url None q in
  let '(response, err) := r in
  match err with
  | Some e => ret (Some e)
  | None =>
      let* resp := deref response in
      if negb (http.RespStatusCode resp =? http.StatusOK) then
        ret (Some (ErrResponse (errors.ofStatusCode (http.RespStatusCode resp))))
      else ret None
  end.

Definition update {R T : Type} `{!json.Marshaler R} `{!httputil.Unmarshaler T}
    (client : serviceManagerClient) (resource : R) (url : string) (id : string)
    (q : option query.Parameters) (result : T) : M (T * option error) :=
  match json.Marshal resource with
  | inl err => ret (result, Some err)
  | inr requestBody =>
      let* r :=
        Call client http.MethodPatch (url +:+ "/" +:+ id) (Some requestBody) q in
      let '(response, err) := r in
      match err with
      | Some e => ret (result, Some e)
      | None =>
          let* resp := deref response in
          if negb (http.RespStatusCode resp =? http.StatusOK) then
            ret (result, Some (ErrResponse (errors.ofStatusCode (http.RespStatusCode resp))))
          else ret (httputil.UnmarshalResponse resp result)
      end
  end.

Definition Label {L : Type} `{!json.Marshaler L}
    (client : serviceManagerClient) (url : string) (id : string) (change : L)
    (q : option query.Parameters) : M (option error) :=
  match json.Marshal change with
  | inl err => ret (Some err)
  | inr requestBody =>
      let* r :=
        Call client http.MethodPatch (url +:+ "/" +:+ id) (Some requestBody) q in
      let '(response, err) := r in
      match err with
      | Some e => ret (Some e)
      | None =>
          let* resp := deref response in
          if negb (http.RespStatusCode resp =? http.StatusOK) then
            ret (Some (ErrResponse (errors.ofStatusCode (http.RespStatusCode resp))))
          else ret None
      end
  end.

(** [ListBrokers], [ListPlatforms] and [ListVisibilities] return the
    freshly allocated result together with the error of [list]. *)
Definition ListBrokers (client : serviceManagerClient) (q : option query.Parameters)
  : M (option Brokers * option error) :=
  let* r := list client zeroBrokers ServiceBrokersURL q in
  let '(brokers, err) := r in
  ret (Some brokers, err).

Definition ListPlatforms (client : serviceManagerClient) (q : option query.Parameters)
  : M (option Platforms * option error) :=
  let* r := list client zeroPlatforms PlatformsURL q in
  let '(platforms, err) := r in
  ret (Some platforms, err).

Definition ListVisibilities (client : serviceManagerClient) (q : option query.Parameters)
  : M (option Visibilities * option error) :=
  let* r := list client zeroVisibilities VisibilitiesURL q in
  let '(visibilities, err) := r in
  ret (Some visibilities, err).

(** The body of the [for i, so := range serviceOfferings.ServiceOfferings]
    loop of [ListOfferings], run over the offerings still to visit: the
    offerings as the loop leaves them, or the error it returns with.
    The composite literal of each [query.Parameters] reads
    [q.GeneralParams] through the pointer [q] the caller passed. *)
Fixpoint ListOfferings_range (client : serviceManagerClient) (q : option query.Parameters)
    (offerings : Datatypes.list (types.ServiceOffering ServicePlan))
  : M (error + Datatypes.list (types.ServiceOffering ServicePlan)) :=
  match offerings with
  | [] => ret (inr [])
  | so :: rest =>
      let fieldQuery := ["service_offering_id = " +:+ types.ID so] in
      let* qv := deref q in
      let* r := list client (types.mkServicePlans []) ServicePlansURL
                  (Some {| query.FieldQuery := fieldQuery;
                           query.GeneralParams := query.GeneralParams qv |}) in
      let '(plans, err) := r in
      match err with
      | Some e => ret (inl e)
      | None =>
          let* qv := deref q in
          let* r := list client {| types.Name := "" |}
                      (ServiceBrokersURL +:+ "/" +:+ types.BrokerID so)
                      (Some {| query.FieldQuery := [];
                               query.GeneralParams := query.GeneralParams qv |}) in
          let '(broker, err) := r in
          match err with
          | Some e => ret (inl e)
          | None =>
              let so' :=
                {| types.ID := types.ID so;
                   types.BrokerID := types.BrokerID so;
                   types.BrokerName := types.Name broker;
                   types.Plans := types.ServicePlans_ plans |} in
              let* r := ListOfferings_range client q rest in
              match r with
              | inl e => ret (inl e)
              | inr rest' => ret (inr (so' :: rest'))
              end
          end
      end
  end.

Definition ListOfferings (client : serviceManagerClient) (q : option query.Parameters)
  : M (option (types.ServiceOfferings ServicePlan) * option error) :=
  let* r := list client (types.mkServiceOfferings []) ServiceOfferingsURL q in
  let '(serviceOfferings, err) := r in
  match err with
  | Some e => ret (None, Some e)
  | None =>
      let* r := ListOfferings_range client q (types.ServiceOfferings_ serviceOfferings) in
      match r with
      | inl e => ret (None, Some e)
      | inr offerings => ret (Some (types.mkServiceOfferings offerings), None)
      end
  end.

(** Modelled from the spec: [oidc.NewOpenIDStrategy] is not among the
    sources.  Section 6 has the discovery collaborator answer
    [GET {issuer}/.well-known/openid-configuration] with the
    authorization and token endpoints, any non-200 status being a hard
    construction failure; section 7 makes a discovery failure fatal to
    client construction and has failures propagate to the immediate
    caller; section 3 lists the two endpoints as the discovered
    metadata.  The fetch itself is [fetchOpenidConfiguration] of the
    source, over an HTTP client with the options' trust and timeout
    settings. *)
Definition NewOpenIDStrategy (options : auth.Options)
  : M (option Authenticator * option auth.Options * option error) :=
  let* r := lift (oidc.fetchOpenidConfiguration (auth.IssuerURL options)
                    (BuildHTTPClient_Do (auth.SSLDisabled options) (auth.Timeout options))) in
  match r with
  | (_, Some e) => ret (None, None, Some e)
  | (None, None) => ret (None, None, Some (ErrNew "discovery failure"))
  | (Some conf, None) =>
      let options' :=
        {| auth.IssuerURL := auth.IssuerURL options;
           auth.ClientID := auth.ClientID options;
           auth.ClientSecret := auth.ClientSecret options;
           auth.AuthorizationEndpoint := oidc.ConfAuthorizationEndpoint conf;
           auth.TokenEndpoint := oidc.ConfTokenEndpoint conf;
           auth.SSLDisabled := auth.SSLDisabled options;
           auth.Timeout := auth.Timeout options;
           auth.TokenBasicAuth := auth.TokenBasicAuth options |} in
      ret (Some (OpenIDStrategy options'), Some options', None)
  end.

Definition NewClientWithAuth (httpClient : option auth_Client) (config : option ClientConfig)
  : M (option serviceManagerClient * option error) :=
  let httpClient :=
    match httpClient with
    | None => Some http_DefaultClient
    | Some _ => httpClient
    end in
  let client := {| config := config; httpClient := httpClient |} in
  let* r := GetInfo client None in
  let '(info, err) := r in
  match err with
  | Some e => ret (None, Some e)
  | None =>
      let* info := deref info in
      let* cfg := deref config in
      let authOptions :=
        {| auth.IssuerURL := types.TokenIssuerURL info;
           auth.ClientID := ClientID cfg;
           auth.ClientSecret := ClientSecret cfg;
           auth.AuthorizationEndpoint := "";
           auth.TokenEndpoint := "";
           auth.SSLDisabled := SSLDisabled cfg;
           auth.Timeout := 0;
           auth.TokenBasicAuth := false |} in
      let* r := NewOpenIDStrategy authOptions in
      let '(authStrategy, authOptions, err) := r in
      match err with
      | Some e => ret (None, Some e)
      | None =>
          let* r := lift (auth_GetToken authOptions authStrategy) in
          let '(token, err) := r in
          match err with
          | Some e => ret (None, Some e)
          | None =>
              let* options := deref authOptions in
              let* authClient := lift (oidc.NewClient options token) in
              let client := {| config := config; httpClient := Some (oidc_Client authClient) |} in
              ret (Some client, None)
          end
      end
  end.

End WithEnv.

(** The exported methods that wrap [register], [update] and [delete], one
    per resource.  [Platform] and [Visibility] stand for [types.Platform]
    and [types.Visibility], whose declarations [client.go] does not show;
    a resource is passed and returned by pointer. *)
Section Resources.
Context `{Env} {Platform Visibility : Type}.
Context (zeroPlatform : Platform) (zeroVisibility : Visibility).
Context `{!json.Marshaler (option Platform)} `{!httputil.Unmarshaler (option Platform)}.
Context `{!json.Marshaler (option types.Broker)} `{!httputil.Unmarshaler (option types.Broker)}.
Context `{!json.Marshaler (option Visibility)} `{!httputil.Unmarshaler (option Visibility)}.

Notation "'let*' x ':=' m 'in' k" := (bind m (fun x => k))
  (at level 10, x name, m at level 100, k at level 200).

Definition RegisterPlatform (client : serviceManagerClient) (platform : option Platform)
    (q : option query.Parameters) : M (option Platform * option error) :=
  let* r := register client platform PlatformsURL q (None : option Platform) in
  let '(newPlatform, err) := r in
  match err with
  | Some e => ret (None, Some e)
  | None => ret (newPlatform, None)
  end.

Definition RegisterBroker (client : serviceManagerClient) (broker : option types.Broker)
    (q : option query.Parameters) : M (option types.Broker * option error) :=
  let* r := register client broker ServiceBrokersURL q (None : option types.Broker) in
  let '(newBroker, err) := r in
  match err with
  | Some e => ret (None, Some e)
  | None => ret (newBroker, None)
  end.

Definition RegisterVisibility (client : serviceManagerClient) (visibility : option Visibility)
    (q : option query.Parameters) : M (option Visibility * option error) :=
  let* r := register client visibility VisibilitiesURL q (None : option Visibility) in
  let '(newVisibility, err) := r in
  match err with
  | Some e => ret (None, Some e)
  | None => ret (newVisibility, None)
  end.

Definition DeleteBrokers (client : serviceManagerClient) (q : option query.Parameters)
  : M (option error) :=
  delete client ServiceBrokersURL q.

Definition DeleteBroker (client : serviceManagerClient) (id : string)
    (q : option query.Parameters) : M (option error) :=
  delete client (ServiceBrokersURL +:+ "/" +:+ id) q.

Definition DeletePlatforms (client : serviceManagerClient) (q : option query.Parameters)
  : M (option error) :=
  delete client PlatformsURL q.

Definition DeletePlatform (client : serviceManagerClient) (id : string)
    (q : option query.Parameters) : M (option error) :=
  delete client (PlatformsURL +:+ "/" +:+ id) q.

Definition DeleteVisibilities (client : serviceManagerClient) (q : option query.Parameters)
  : M (option error) :=
  delete client VisibilitiesURL q.

Definition DeleteVisibility (client : serviceManagerClient) (id : string)
    (q : option query.Parameters) : M (option error) :=
  delete client (VisibilitiesURL +:+ "/" +:+ id) q.

Definition UpdateBroker (client : serviceManagerClient) (id : string)
    (updatedBroker : option types.Broker) (q : option query.Parameters)
  : M (option types.Broker * option error) :=
  let* r := update client updatedBroker ServiceBrokersURL id q (Some {| types.Name := "" |}) in
  let '(result, err) := r in
  match err with
  | Some e => ret (None, Some e)
  | None => ret (result, None)
  end.

Definition UpdatePlatform (client : serviceManagerClient) (id : string)
    (updatedPlatform : option Platform) (q : option query.Parameters)
  : M (option Platform * option error) :=
  let* r := update client updatedPlatform PlatformsURL id q (Some zeroPlatform) in
  let '(result, err) := r in
  match err with
  | Some e => ret (None, Some e)
  | None => ret (result, None)
  end.

Definition UpdateVisibility (client : serviceManagerClient) (id : string)
    (updatedVisibility : option Visibility) (q : option query.Parameters)
  : M (option Visibility * option error) :=
  let* r := update client updatedVisibility VisibilitiesURL id q (Some zeroVisibility) in
  let '(result, err) := r in
  match err with
  | Some e => ret (None, Some e)
  | None => ret (result, None)
  end.

End Resources.

End smclient.

#[global] Existing Instances
  smclient.oauthEnv smclient.urlParser smclient.unmarshalContent
  smclient.unmarshalConfiguration smclient.unmarshalInfo smclient.unmarshalPlatforms
  smclient.unmarshalBrokers smclient.unmarshalVisibilities smclient.unmarshalBroker
  smclient.unmarshalOfferings smclient.unmarshalPlans.

(** ** Vocabulary of the properties *)

(** The two acquisition strategies of section 4.1. *)
Inductive Strategy : Type := ClientCredentials | RefreshStrategy.

(** The strategy a token source follows: that of the source it falls back
    on once its cached token is no longer valid. *)
Fixpoint strategy (s : oauth2.TokenSource) : Strategy :=
  match s with
  | oauth2.reuseTokenSource _ new => strategy new
  | oauth2.tokenRefresher _ _ _ => RefreshStrategy
  | oauth2.ccTokenSource _ _ => ClientCredentials
  end.

(** The token a source holds in its cache. *)
Definition cachedToken (s : oauth2.TokenSource) : option oauth2.Token :=
  match s with
  | oauth2.reuseTokenSource t _ => t
  | _ => None
  end.

(** A seed token is refreshable when it is present and carries a refresh
    token (section 3). *)
Definition refreshable (token : option auth.Token) : Prop :=
  exists tk, token = Some tk /\ auth.RefreshToken tk <> "".


(** The context [NewClient] builds from the options. *)
Definition contextOf (options : auth.Options) : oauth2.Context :=
  {| oauth2.ctxSSLDisabled := auth.SSLDisabled options;
     oauth2.ctxTimeout := auth.Timeout options |}.

(** The life of an [oidc.Client]: a sequence of calls of its two methods,
    each at some instant. *)
Inductive ClientCall : Type :=
| CallToken (now : Time)
| CallDo (now : Time) (req : http.Request).

Definition step `{oauth2.Env} (call : ClientCall) (c : oidc.Client) (w : oauth2.World oauth2.N)
  : oidc.Client * oauth2.World oauth2.N :=
  match call with
  | CallToken now => let '(_, c', w') := oidc.Token now c w in (c', w')
  | CallDo now req => let '(_, c', w') := oidc.Do now c req w in (c', w')
  end.

Fixpoint run `{oauth2.Env} (calls : list ClientCall) (c : oidc.Client) (w : oauth2.World oauth2.N)
  : oidc.Client * oauth2.World oauth2.N :=
  match calls with
  | [] => (c, w)
  | call :: rest => let '(c', w') := step call c w in run rest c' w'
  end.

(** The [oauth2.Config] that [refreshTokenSource] builds from the options. *)
Definition configOf (options : auth.Options) : oauth2.Config :=
  {| oauth2.ClientID := auth.ClientID options;
     oauth2.ClientSecret := auth.ClientSecret options;
     oauth2.ConfigEndpoint :=
       {| oauth2.AuthURL := auth.AuthorizationEndpoint options;
          oauth2.TokenURL := auth.TokenEndpoint options |} |}.

(** The refresh-token source of context [ctx] and configuration [conf] in
    working order: a cache in front of the refresher, which holds a
    refresh token.  Only the cached token and the refresh token vary. *)
Definition refreshing (ctx : oauth2.Context) (conf : oauth2.Config)
    (s : oauth2.TokenSource) : Prop :=
  exists t rt,
    s = oauth2.reuseTokenSource t (oauth2.tokenRefresher ctx conf rt) /\ rt <> "".

(** The instant of a call. *)
Definition callTime (call : ClientCall) : Time :=
  match call with
  | CallToken now => now
  | CallDo now _ => now
  end.


(** A call of [Call] that got as far as an answer from the server: the
    client has a configuration and an HTTP client, the request for
    [fullURL] could be built, and [Do] returned the response [resp],
    leaving the world [w']. *)
Definition answered `{smclient.Env} (client : smclient.serviceManagerClient)
    (method : http.Method) (smpath : string) (body : option string)
    (q : option query.Parameters) (w : smclient.W)
    (fullURL : string) (resp : http.Response) (w' : smclient.W) : Prop :=
  exists cfg c req,
    smclient.config client = Some cfg
    /\ smclient.httpClient client = Some c
    /\ fullURL = smclient.NormalizeURL (smclient.URL cfg) +:+ smclient.buildURL smpath q
    /\ http.NewRequest method fullURL body = inr req
    /\ smclient.Client_Do c (http.Header_Add "Content-Type" "application/json" req) w
       = (http.DoResponse resp, w').

(** A status code outside 200-299. *)
Definition failureStatus (code : Z) : Prop := code < 200 \/ 299 < code.

(** How an operation that expects the status [expected] maps a response:
    with that status it returns what decoding the body gives, so a body
    that decodes to [v] yields [v] and no error; with any other status it
    leaves the result unset and returns a Resource Error with the status
    of the response. *)
Definition mapsStatus {T : Type} `{!httputil.Unmarshaler T} (expected : Z)
    (resp : http.Response) (result : T) (outcome : smclient.Outcome (T * option error)) : Prop :=
  (http.RespStatusCode resp = expected ->
     outcome = smclient.Return (httputil.UnmarshalResponse resp result)
     /\ forall v, httputil.UnmarshalResponse resp result = (v, None) ->
                  outcome = smclient.Return (v, None))
  /\ (http.RespStatusCode resp <> expected ->
      exists e, outcome = smclient.Return (result, Some (ErrResponse e))
                /\ errors.StatusCode e = http.RespStatusCode resp).

(** The same for the operations that return an error only. *)
Definition mapsStatusNoBody (expected : Z) (resp : http.Response)
    (outcome : smclient.Outcome (option error)) : Prop :=
  (http.RespStatusCode resp = expected -> outcome = smclient.Return None)
  /\ (http.RespStatusCode resp <> expected ->
      exists e, outcome = smclient.Return (Some (ErrResponse e))
                /\ errors.StatusCode e = http.RespStatusCode resp).

(** ** A scripted environment

    A concrete world on which the definitions run: the token endpoint and
    the HTTP server answer from fixed scripts, tokens are valid as in the
    oauth2 library (non-empty access token, and no expiry or an expiry
    more than ten seconds away), and the codecs understand a handful of
    bodies.  The properties are instantiated on it. *)
Module Sample.

Record Net : Type := mkNet {
  tokenAnswers : list (error + oauth2.Token);
  httpAnswers : list http.DoResult
}.

Definition popToken (n : Net) : (error + oauth2.Token) * Net :=
  match tokenAnswers n with
  | [] => (inl (ErrExternal "token endpoint unreachable"), n)
  | r :: rest => (r, {| tokenAnswers := rest; httpAnswers := httpAnswers n |})
  end.

Definition popHTTP (n : Net) : http.DoResult * Net :=
  match httpAnswers n with
  | [] => (http.DoError (ErrExternal "connection refused"), n)
  | r :: rest => (r, {| tokenAnswers := tokenAnswers n; httpAnswers := rest |})
  end.

Definition valid (now : Time) (t : oauth2.Token) : bool :=
  negb (String.eqb (oauth2.AccessToken t) "")
  && ((oauth2.Expiry t =? 0) || (now <=? oauth2.Expiry t - 10)).

#[export] Instance oauthEnv : oauth2.Env := {|
  oauth2.N := Net;
  oauth2.Valid := valid;
  oauth2.tokenEndpoint := fun _ _ n => popToken n;
  oauth2.roundTrip := fun _ n => popHTTP n
|}.

Definition onNet {A : Type} (f : Net -> A * Net) (w : oauth2.World Net) : A * oauth2.World Net :=
  let '(a, n') := f (oauth2.net w) in
  (a, {| oauth2.brokenAuthHeaderProviders := oauth2.brokenAuthHeaderProviders w;
         oauth2.exchanges := oauth2.exchanges w;
         oauth2.net := n' |}).

(** Bodies the sample codecs decode. *)
Definition decodeContent (resp : http.Response) (v : gmap string json.Value)
  : gmap string json.Value * option error :=
  if String.eqb (http.RespBody resp) "error=invalid_token description=expired" then
    (<["error" := json.String "invalid_token"]>
       (<["description" := json.String "expired"]> v), None)
  else if String.eqb (http.RespBody resp) "error=bad_request" then
    (<["error" := json.String "bad_request"]> v, None)
  else (v, Some (ErrExternal "invalid character")).

Definition decodeText {T : Type} (f : string -> T) (resp : http.Response) (v : T)
  : T * option error :=
  if String.eqb (http.RespBody resp) "" then (v, Some (ErrExternal "unexpected end of JSON input"))
  else (f (http.RespBody resp), None).

Definition offeringNamed (id : string) : types.ServiceOffering string :=
  {| types.ID := id; types.BrokerID := "broker-1"; types.BrokerName := ""; types.Plans := [] |}.

Definition encode (q : option query.Parameters) : string :=
  match q with
  | None => ""
  | Some p => String.concat "&" (query.FieldQuery p ++ query.GeneralParams p)
  end.

#[export] Instance urlParser : http.URLParser :=
  fun url => if String.eqb url "" then Some (ErrExternal "empty url") else None.

#[export] Instance marshalText : json.Marshaler string := fun s => inr s.

#[export] Instance unmarshalText : httputil.Unmarshaler (option string) :=
  decodeText Some.

#[export] Instance env : smclient.Env := {|
  smclient.oauthEnv := oauthEnv;
  smclient.urlParser := urlParser;
  smclient.auth_Client := option oidc.Client;
  smclient.Client_Do := fun _ _ => onNet popHTTP;
  smclient.http_DefaultClient := None;
  smclient.oidc_Client := Some;
  smclient.Authenticator := unit;
  smclient.auth_GetToken := fun _ _ w => ((None, None), w);
  smclient.BuildHTTPClient_Do := fun _ _ _ => onNet popHTTP;
  smclient.OpenIDStrategy := fun _ => tt;
  smclient.NormalizeURL := fun url => url;
  smclient.Parameters_Encode := encode;
  smclient.InfoURL := "/v1/info";
  smclient.PlatformsURL := "/v1/platforms";
  smclient.ServiceBrokersURL := "/v1/service_brokers";
  smclient.VisibilitiesURL := "/v1/visibilities";
  smclient.ServiceOfferingsURL := "/v1/service_offerings";
  smclient.ServicePlansURL := "/v1/service_plans";
  smclient.DefaultInfo := {| types.TokenIssuerURL := "" |};
  smclient.ServicePlan := string;
  smclient.Platforms := list string;
  smclient.Brokers := list string;
  smclient.Visibilities := list string;
  smclient.zeroPlatforms := [];
  smclient.zeroBrokers := [];
  smclient.zeroVisibilities := [];
  smclient.unmarshalContent := decodeContent;
  smclient.unmarshalConfiguration :=
    decodeText (fun body => Some {| oidc.ConfAuthorizationEndpoint := body +:+ "/authorize";
                                    oidc.ConfTokenEndpoint := body +:+ "/token" |});
  smclient.unmarshalInfo := decodeText types.mkInfo;
  smclient.unmarshalPlatforms := decodeText (fun body => [body]);
  smclient.unmarshalBrokers := decodeText (fun body => [body]);
  smclient.unmarshalVisibilities := decodeText (fun body => [body]);
  smclient.unmarshalBroker := decodeText types.mkBroker;
  smclient.unmarshalOfferings :=
    decodeText (fun body => types.mkServiceOfferings [offeringNamed body]);
  smclient.unmarshalPlans := decodeText (fun body => types.mkServicePlans [body])
|}.

Definition options : auth.Options :=
  {| auth.IssuerURL := "https://uaa.example.com";
     auth.ClientID := "cli";
     auth.ClientSecret := "secret";
     auth.AuthorizationEndpoint := "https://uaa.example.com/authorize";
     auth.TokenEndpoint := "https://uaa.example.com/token";
     auth.SSLDisabled := false;
     auth.Timeout := 10;
     auth.TokenBasicAuth := true |}.

(** A token that expires at instant 1000, with and without a refresh
    token. *)
Definition refreshableSeed : auth.Token :=
  {| auth.AccessToken := "access-1"; auth.RefreshToken := "refresh-1";
     auth.ExpiresIn := 1000; auth.TokenType := "bearer" |}.

Definition boundSeed : auth.Token :=
  {| auth.AccessToken := "access-1"; auth.RefreshToken := "";
     auth.ExpiresIn := 1000; auth.TokenType := "bearer" |}.

Definition world (tokens : list (error + oauth2.Token)) (answers : list http.DoResult)
  : oauth2.World Net :=
  {| oauth2.brokenAuthHeaderProviders := [];
     oauth2.exchanges := [];
     oauth2.net := {| tokenAnswers := tokens; httpAnswers := answers |} |}.

Definition client : smclient.serviceManagerClient :=
  smclient.NewClient (Some None) "https://sm.example.com".


Definition answer (code : Z) (body : string) : http.DoResult :=
  http.DoResponse {| http.RespStatusCode := code; http.RespBody := body |}.

End Sample.

(** ** Further vocabulary *)

(** The [clientcredentials.Config] that [clientCredentialsTokenSource]
    builds from the options. *)
Definition ccConfigOf (options : auth.Options) : oauth2.CCConfig :=
  {| oauth2.CCClientID := auth.ClientID options;
     oauth2.CCClientSecret := auth.ClientSecret options;
     oauth2.CCTokenURL := auth.TokenEndpoint options |}.

(** A Go result pair that holds a value or an error, and not both. *)
Definition exactlyOne {A : Type} (r : option A * option error) : Prop :=
  match r with
  | (Some _, None) | (None, Some _) => True
  | _ => False
  end.

(** The request [Call] hands to [Do]. *)
Definition requestOf (method : http.Method) (fullURL : string) (body : option string)
  : http.Request :=
  http.Header_Add "Content-Type" "application/json"
    {| http.ReqMethod := method; http.ReqURL := fullURL; http.ReqBody := body;
       http.ReqHeader := [] |}.

(** The string found under [key] in a decoded error body, or the empty
    string when the key is missing or holds something else. *)
Definition stringMember (content : gmap string json.Value) (key : string) : string :=
  default "" (json.assert_string (content !! key)).

(** The token a refresh exchange yields from the endpoint's answer [tk]: an
    answer without a refresh token keeps the refresh token [rt] that was
    sent. *)
Definition refreshed (rt : string) (tk : oauth2.Token) : oauth2.Token :=
  if String.eqb (oauth2.RefreshToken tk) "" then
    {| oauth2.AccessToken := oauth2.AccessToken tk; oauth2.TokenType := oauth2.TokenType tk;
       oauth2.RefreshToken := rt; oauth2.Expiry := oauth2.Expiry tk |}
  else tk.

(** The world after one exchange [g] that left the network as [n]. *)
Definition afterExchange `{oauth2.Env} (g : oauth2.Grant) (n : oauth2.N)
    (w : oauth2.World oauth2.N) : oauth2.World oauth2.N :=
  {| oauth2.brokenAuthHeaderProviders := oauth2.brokenAuthHeaderProviders w;
     oauth2.exchanges := g :: oauth2.exchanges w;
     oauth2.net := n |}.

(** The request [fetchOpenidConfiguration] makes. *)
Definition discoveryRequest (issuerURL : string) : http.Request :=
  {| http.ReqMethod := http.MethodGet;
     http.ReqURL := issuerURL +:+ "/.well-known/openid-configuration";
     http.ReqBody := None;
     http.ReqHeader := [] |}.

(** Codecs for resources passed by pointer, on the scripted environment. *)
Module SampleResources.

#[export] Instance marshalPointer : json.Marshaler (option string) :=
  fun p => match p with
           | Some s => inr s
           | None => inr "null"
           end.

#[export] Instance marshalBroker : json.Marshaler (option types.Broker) :=
  fun p => match p with
           | Some b => inr (types.Name b)
           | None => inr "null"
           end.

#[export] Instance unmarshalBrokerPointer : httputil.Unmarshaler (option types.Broker) :=
  Sample.decodeText (fun body => Some (types.mkBroker body)).

(** A marshaller that fails, as [json.Marshal] does on a value it cannot
    encode. *)
Definition marshalFails : json.Marshaler string :=
  fun _ => inl (ErrExternal "json: unsupported value").

(** A token as the endpoint issues it, valid until instant 5000. *)
Definition issued : oauth2.Token :=
  {| oauth2.AccessToken := "access-2"; oauth2.TokenType := "bearer";
     oauth2.RefreshToken := ""; oauth2.Expiry := 5000 |}.

(** The scripted environment with a server that has no offerings: the
    decoder of the offerings leaves the empty listing as it is. *)
Definition envNoOfferings : smclient.Env := {|
  smclient.oauthEnv := Sample.oauthEnv;
  smclient.urlParser := Sample.urlParser;
  smclient.auth_Client := option oidc.Client;
  smclient.Client_Do := fun _ _ => Sample.onNet Sample.popHTTP;
  smclient.http_DefaultClient := None;
  smclient.oidc_Client := Some;
  smclient.Authenticator := unit;
  smclient.auth_GetToken := fun _ _ w => ((None, None), w);
  smclient.BuildHTTPClient_Do := fun _ _ _ => Sample.onNet Sample.popHTTP;
  smclient.OpenIDStrategy := fun _ => tt;
  smclient.NormalizeURL := fun url => url;
  smclient.Parameters_Encode := Sample.encode;
  smclient.InfoURL := "/v1/info";
  smclient.PlatformsURL := "/v1/platforms";
  smclient.ServiceBrokersURL := "/v1/service_brokers";
  smclient.VisibilitiesURL := "/v1/visibilities";
  smclient.ServiceOfferingsURL := "/v1/service_offerings";
  smclient.ServicePlansURL := "/v1/service_plans";
  smclient.DefaultInfo := {| types.TokenIssuerURL := "" |};
  smclient.ServicePlan := string;
  smclient.Platforms := list string;
  smclient.Brokers := list string;
  smclient.Visibilities := list string;
  smclient.zeroPlatforms := [];
  smclient.zeroBrokers := [];
  smclient.zeroVisibilities := [];
  smclient.unmarshalContent := Sample.decodeContent;
  smclient.unmarshalConfiguration := fun _ v => (v, None);
  smclient.unmarshalInfo := Sample.decodeText types.mkInfo;
  smclient.unmarshalPlatforms := Sample.decodeText (fun body => [body]);
  smclient.unmarshalBrokers := Sample.decodeText (fun body => [body]);
  smclient.unmarshalVisibilities := Sample.decodeText (fun body => [body]);
  smclient.unmarshalBroker := Sample.decodeText types.mkBroker;
  smclient.unmarshalOfferings := fun _ v => (v, None);
  smclient.unmarshalPlans := Sample.decodeText (fun body => types.mkServicePlans [body])
|}.

(** The configuration and the client used on the scripted environment. *)
Definition config : smclient.ClientConfig :=
  smclient.mkClientConfig "https://sm.example.com" "cli" "secret" false.

Definition offeringsClient : smclient.serviceManagerClient (H := envNoOfferings) :=
  smclient.NewClient (H := envNoOfferings) (Some None) "https://sm.example.com".

End SampleResources.


(** ** Token-source selection and token conversions *)

Section TokenSources.
Context `{oauth2.Env}.

Lemma refreshable_iff (token : option auth.Token) :
  refreshable token <->
  match token with
  | None => False
  | Some tk => String.eqb (auth.RefreshToken tk) "" = false
  end.
Proof.
  unfold refreshable. destruct token as [tk|].
  - rewrite String.eqb_neq. split.
    + intros (tk' & [= <-] & Hne). exact Hne.
    + intros Hne. exists tk. split; [reflexivity | exact Hne].
  - split; [intros (tk & Heq & _); discriminate | intros []].
Qed.

Lemma NewClient_tokenSource (options : auth.Options) (token : option auth.Token)
    (w : oauth2.World oauth2.N) :
  oidc.tokenSource (fst (oidc.NewClient options token w)) =
  match token with
  | Some tk =>
      if String.eqb (auth.RefreshToken tk) "" then
        oidc.clientCredentialsTokenSource (contextOf options) options (oidc.toOAuth2 token)
      else oidc.refreshTokenSource (contextOf options) options (oidc.toOAuth2 token)
  | None => oidc.clientCredentialsTokenSource (contextOf options) options (oidc.toOAuth2 token)
  end.
Proof. destruct token as [tk|]; reflexivity. Qed.

(** C1: whatever the options and the optional seed token, [NewClient]
    builds the client-credentials source exactly when the seed is absent
    or has an empty refresh token, and otherwise the refresh-token source
    holding the converted seed as its cached token; the client holds that
    one source, which follows one strategy and not the other. *)
Theorem NewClient_selects_one_source (options : auth.Options) (token : option auth.Token)
    (w : oauth2.World oauth2.N) :
  let src := oidc.tokenSource (fst (oidc.NewClient options token w)) in
  let ctx := contextOf options in
  (src = oidc.clientCredentialsTokenSource ctx options (oidc.toOAuth2 token)
     <-> (token = None \/ exists tk, token = Some tk /\ auth.RefreshToken tk = ""))
  /\ (src = oidc.refreshTokenSource ctx options (oidc.toOAuth2 token)
     <-> refreshable token)
  /\ (strategy src = ClientCredentials <-> ~ refreshable token)
  /\ (strategy src = RefreshStrategy <-> refreshable token)
  /\ (refreshable token -> cachedToken src = Some (oidc.toOAuth2 token)).
Proof.
  intros src ctx. subst src ctx. rewrite NewClient_tokenSource, !refreshable_iff.
  destruct token as [tk|]; [destruct (String.eqb_spec (auth.RefreshToken tk) "") as [He|Hne] |];
    cbn; repeat split; try tauto; try congruence; try discriminate; eauto.
  all: try (intros [[=] | (tk' & [= <-] & He)]; contradiction).
Qed.

Lemma toOAuth2_fromOAuth2 (token : auth.Token) :
  oidc.fromOAuth2 (oidc.toOAuth2 (Some token)) = token.
Proof. destruct token; reflexivity. Qed.

Lemma fromOAuth2_toOAuth2 (tt : oauth2.Token) :
  oidc.toOAuth2 (Some (oidc.fromOAuth2 tt)) = tt.
Proof. destruct tt; reflexivity. Qed.

Lemma Token_of_source (now : Time) (c : oidc.Client) (w : oauth2.World oauth2.N) :
  oidc.Token now c w =
  let '(r, src', w') := oauth2.Token_ now (oidc.tokenSource c) w in
  (match r with
   | inl err => (None, Some err)
   | inr token => (Some (oidc.fromOAuth2 token), None)
   end,
   {| oidc.tokenSource := src'; oidc.httpClientTimeout := oidc.httpClientTimeout c |}, w').
Proof.
  unfold oidc.Token. destruct (oauth2.Token_ now (oidc.tokenSource c) w) as [[[err|tk] src'] w'];
    reflexivity.
Qed.

(** C10: the conversion made at construction and the one made by
    [Client.Token] undo each other, field by field and in both directions;
    so when the source of a client built from a token hands back that
    converted token unchanged, [Client.Token] returns a token with the same
    access token, refresh token, expiry and token type. *)
Theorem token_conversions_inverse (options : auth.Options) (token : auth.Token)
    (now : Time) (w w1 w' : oauth2.World oauth2.N) (src' : oauth2.TokenSource) :
  let c := fst (oidc.NewClient options (Some token) w) in
  oauth2.Token_ now (oidc.tokenSource c) w1 = (inr (oidc.toOAuth2 (Some token)), src', w') ->
  (exists back c',
      oidc.Token now c w1 = ((Some back, None), c', w')
      /\ auth.AccessToken back = auth.AccessToken token
      /\ auth.RefreshToken back = auth.RefreshToken token
      /\ auth.ExpiresIn back = auth.ExpiresIn token
      /\ auth.TokenType back = auth.TokenType token)
  /\ oidc.fromOAuth2 (oidc.toOAuth2 (Some token)) = token
  /\ (forall tt : oauth2.Token,
        let tt' := oidc.toOAuth2 (Some (oidc.fromOAuth2 tt)) in
        oauth2.AccessToken tt' = oauth2.AccessToken tt
        /\ oauth2.RefreshToken tt' = oauth2.RefreshToken tt
        /\ oauth2.Expiry tt' = oauth2.Expiry tt
        /\ oauth2.TokenType tt' = oauth2.TokenType tt).
Proof.
  intros c Hsrc. split; [| split].
  - rewrite Token_of_source, Hsrc. rewrite toOAuth2_fromOAuth2.
    eexists _, _. split; [reflexivity |]. repeat split.
  - apply toOAuth2_fromOAuth2.
  - intros tt tt'. subst tt'. rewrite fromOAuth2_toOAuth2. repeat split.
Qed.

(** *** A valid cached token is reused *)

Lemma Token_cached (now : Time) (t : option oauth2.Token) (new : oauth2.TokenSource)
    (tk : oauth2.Token) (w : oauth2.World oauth2.N) :
  oauth2.cached now t = Some tk ->
  oauth2.Token_ now (oauth2.reuseTokenSource t new) w =
  (inr tk, oauth2.reuseTokenSource t new, w).
Proof. intros Hc. cbn. rewrite Hc. reflexivity. Qed.

Lemma client_eta (c : oidc.Client) :
  {| oidc.tokenSource := oidc.tokenSource c;
     oidc.httpClientTimeout := oidc.httpClientTimeout c |} = c.
Proof. destruct c; reflexivity. Qed.

Lemma step_cached (call : ClientCall) (c : oidc.Client) (t : option oauth2.Token)
    (new : oauth2.TokenSource) (tk : oauth2.Token) (w : oauth2.World oauth2.N) :
  oidc.tokenSource c = oauth2.reuseTokenSource t new ->
  oauth2.cached (callTime call) t = Some tk ->
  fst (step call c w) = c
  /\ oauth2.exchanges (snd (step call c w)) = oauth2.exchanges w.
Proof.
  intros Hsrc Hc. destruct call as [now|now req]; cbn in Hc |- *.
  - rewrite Token_of_source, Hsrc, (Token_cached _ _ _ _ _ Hc). cbn.
    rewrite <- Hsrc, client_eta. auto.
  - unfold oidc.Do, oauth2.Transport_RoundTrip.
    rewrite Hsrc, (Token_cached _ _ _ _ _ Hc).
    destruct (oauth2.roundTrip (oauth2.SetAuthHeader tk req) (oauth2.net w)) as [res n'].
    cbn. rewrite <- Hsrc, client_eta. auto.
Qed.

Lemma run_cached (calls : list ClientCall) (c : oidc.Client) (t : option oauth2.Token)
    (new : oauth2.TokenSource) (tk : oauth2.Token) (w : oauth2.World oauth2.N) :
  oidc.tokenSource c = oauth2.reuseTokenSource t new ->
  Forall (fun call => oauth2.cached (callTime call) t = Some tk) calls ->
  fst (run calls c w) = c
  /\ oauth2.exchanges (snd (run calls c w)) = oauth2.exchanges w.
Proof.
  intros Hsrc Hall. revert w. induction Hall as [|call calls Hc _ IH]; intros w; cbn.
  - auto.
  - destruct (step_cached call c t new tk w Hsrc Hc) as [Hc' Hw'].
    destruct (step call c w) as [c' w']. cbn in Hc', Hw'. subst c'.
    rewrite <- Hw'. apply IH.
Qed.

(** C7: a client built from a seed token without a refresh token gets the
    client-credentials source with the converted seed installed as its
    cached token; as long as that token is valid the source hands it back
    unchanged and stays as it was, and however many calls are made in that
    time, none of them adds an exchange with the token endpoint. *)
Theorem seed_honoured_while_valid (options : auth.Options) (seed : auth.Token)
    (w : oauth2.World oauth2.N) :
  auth.RefreshToken seed = "" ->
  let c := fst (oidc.NewClient options (Some seed) w) in
  let tt := oidc.toOAuth2 (Some seed) in
  strategy (oidc.tokenSource c) = ClientCredentials
  /\ cachedToken (oidc.tokenSource c) = Some tt
  /\ (forall now w1, oauth2.Valid now tt = true ->
        oauth2.Token_ now (oidc.tokenSource c) w1 = (inr tt, oidc.tokenSource c, w1)
        /\ oidc.Token now c w1 = ((Some seed, None), c, w1))
  /\ (forall calls w1,
        Forall (fun call => oauth2.Valid (callTime call) tt = true) calls ->
        fst (run calls c w1) = c
        /\ oauth2.exchanges (snd (run calls c w1)) = oauth2.exchanges w1).
Proof.
  intros Hrt c tt.
  assert (Hsrc : oidc.tokenSource c =
                 oauth2.reuseTokenSource (Some tt)
                   (oauth2.ccTokenSource (contextOf options)
                      {| oauth2.CCClientID := auth.ClientID options;
                         oauth2.CCClientSecret := auth.ClientSecret options;
                         oauth2.CCTokenURL := auth.TokenEndpoint options |})).
  { subst c. rewrite NewClient_tokenSource, Hrt. reflexivity. }
  assert (Hcached : forall now, oauth2.Valid now tt = true -> oauth2.cached now (Some tt) = Some tt).
  { intros now Hv. unfold oauth2.cached. rewrite Hv. reflexivity. }
  split; [rewrite Hsrc; reflexivity |].
  split; [rewrite Hsrc; reflexivity |].
  split.
  - intros now w1 Hv. split.
    + rewrite Hsrc. apply Token_cached, Hcached, Hv.
    + rewrite Token_of_source, Hsrc, (Token_cached _ _ _ _ _ (Hcached _ Hv)).
      subst tt. rewrite toOAuth2_fromOAuth2, <- Hsrc, client_eta. reflexivity.
  - intros calls w1 Hall. eapply run_cached; [exact Hsrc |].
    eapply Forall_impl; [exact Hall |]. intros call Hv. apply Hcached, Hv.
Qed.

(** *** The refresh strategy is kept for life *)








End TokenSources.

(** ** The response/error normaliser and the operations built on it *)

Section Normaliser.
Context `{smclient.Env}.

Ltac monad :=
  unfold smclient.bind, smclient.deref, smclient.ret, smclient.lift; cbn beta iota.

Lemma bind_Return {A B : Type} (m : smclient.M A) (f : A -> smclient.M B)
    (w w' : smclient.W) (a : A) :
  m w = (smclient.Return a, w') -> smclient.bind m f w = f a w'.
Proof. intros Hm. unfold smclient.bind. rewrite Hm. reflexivity. Qed.

(** What [Call] makes of an answer. *)
Lemma Call_answered (client : smclient.serviceManagerClient) (method : http.Method)
    (smpath : string) (body : option string) (q : option query.Parameters)
    (w w' : smclient.W) (fullURL : string) (resp : http.Response) :
  answered client method smpath body q w fullURL resp w' ->
  smclient.Call client method smpath body q w =
  (smclient.Return
     (if (http.RespStatusCode resp <? 200) || (299 <? http.RespStatusCode resp) then
        let respErr :=
          {| errors.StatusCode := http.RespStatusCode resp; errors.URL := fullURL;
             errors.ErrorMessage := ""; errors.Description := "" |} in
        let content := httputil.UnmarshalResponse resp (∅ : gmap string json.Value) in
        match snd content with
        | Some _ => (Some resp, Some (ErrResponse respErr))
        | None =>
            let respErr :=
              match json.assert_string (fst content !! "error") with
              | Some errorMessage => errors.setErrorMessage errorMessage respErr
              | None => respErr
              end in
            let respErr :=
              match json.assert_string (fst content !! "description") with
              | Some description => errors.setDescription description respErr
              | None => respErr
              end in
            (None, Some (ErrResponse respErr))
        end
      else (Some resp, None)), w').
Proof.
  intros (cfg & c & req & Hcfg & Hc & -> & Hreq & Hdo).
  unfold smclient.Call. rewrite Hcfg. monad. rewrite Hreq, Hc. monad. rewrite Hdo.
  destruct ((http.RespStatusCode resp <? 200) || (299 <? http.RespStatusCode resp)); [| reflexivity].
  destruct (httputil.UnmarshalResponse resp ∅) as [content [err|]]; reflexivity.
Qed.

Lemma Call_success (client : smclient.serviceManagerClient) (method : http.Method)
    (smpath : string) (body : option string) (q : option query.Parameters)
    (w w' : smclient.W) (fullURL : string) (resp : http.Response) :
  answered client method smpath body q w fullURL resp w' ->
  ~ failureStatus (http.RespStatusCode resp) ->
  smclient.Call client method smpath body q w = (smclient.Return (Some resp, None), w').
Proof.
  intros Hans Hok. rewrite (Call_answered _ _ _ _ _ _ _ _ _ Hans).
  unfold failureStatus in Hok.
  destruct (Z.ltb_spec (http.RespStatusCode resp) 200); [lia |].
  destruct (Z.ltb_spec 299 (http.RespStatusCode resp)); [lia |]. reflexivity.
Qed.

Lemma Call_failure (client : smclient.serviceManagerClient) (method : http.Method)
    (smpath : string) (body : option string) (q : option query.Parameters)
    (w w' : smclient.W) (fullURL : string) (resp : http.Response) :
  answered client method smpath body q w fullURL resp w' ->
  failureStatus (http.RespStatusCode resp) ->
  exists r e,
    smclient.Call client method smpath body q w = (smclient.Return (r, Some (ErrResponse e)), w')
    /\ errors.StatusCode e = http.RespStatusCode resp
    /\ errors.URL e = fullURL.
Proof.
  intros Hans Hko. rewrite (Call_answered _ _ _ _ _ _ _ _ _ Hans).
  assert (Hb : (http.RespStatusCode resp <? 200) || (299 <? http.RespStatusCode resp) = true).
  { apply orb_true_iff. rewrite !Z.ltb_lt. exact Hko. }
  rewrite Hb. cbn zeta.
  destruct (httputil.UnmarshalResponse resp ∅) as [content [err|]]; cbn [fst snd].
  - eexists _, _. split; [reflexivity | split; reflexivity].
  - eexists _, _. split; [reflexivity |].
    destruct (json.assert_string (content !! "error")),
             (json.assert_string (content !! "description")); split; reflexivity.
Qed.

(** Whatever [Call] returns, it returns a response or an error; it
    returns both only for an answer outside 200-299 whose body does not
    decode. *)
Lemma Call_result_shape (client : smclient.serviceManagerClient) (method : http.Method)
    (smpath : string) (body : option string) (q : option query.Parameters)
    (w w' : smclient.W) (r : option http.Response * option error) :
  smclient.Call client method smpath body q w = (smclient.Return r, w') ->
  match r with
  | (Some resp, Some _) =>
      failureStatus (http.RespStatusCode resp)
      /\ snd (httputil.UnmarshalResponse resp (∅ : gmap string json.Value)) <> None
  | (Some resp, None) => ~ failureStatus (http.RespStatusCode resp)
  | (None, Some _) => True
  | (None, None) => False
  end.
Proof.
  unfold smclient.Call.
  destruct (smclient.config client) as [cfg|]; [| discriminate]. monad.
  destruct (http.NewRequest method _ body) as [err|req]; [intros [= <- _]; exact I |].
  destruct (smclient.httpClient client) as [c|]; [| discriminate]. monad.
  destruct (smclient.Client_Do c _ w) as [[err|resp] w1]; [intros [= <- _]; exact I |].
  destruct ((http.RespStatusCode resp <? 200) || (299 <? http.RespStatusCode resp)) eqn:Hb.
  - apply orb_true_iff in Hb. rewrite !Z.ltb_lt in Hb.
    destruct (httputil.UnmarshalResponse resp ∅) as [content [err|]] eqn:Hdec;
      intros [= <- _]; [| exact I].
    split; [exact Hb |]. rewrite Hdec. discriminate.
  - apply orb_false_iff in Hb. rewrite !Z.ltb_ge in Hb. intros [= <- _].
    unfold failureStatus. lia.
Qed.

(** The part every operation shares: what follows the call, given the
    status the operation expects. *)
Lemma after_Call {A : Type} (client : smclient.serviceManagerClient) (method : http.Method)
    (smpath : string) (body : option string) (q : option query.Parameters)
    (w w' : smclient.W) (fullURL : string) (resp : http.Response) (expected : Z)
    (onError : error -> A) (onSuccess : http.Response -> A) :
  answered client method smpath body q w fullURL resp w' ->
  200 <= expected <= 299 ->
  let outcome :=
    smclient.bind (smclient.Call client method smpath body q)
      (fun r =>
         let '(response, err) := r in
         match err with
         | Some e => smclient.ret (onError e)
         | None =>
             smclient.bind (smclient.deref response)
               (fun resp =>
                  if negb (http.RespStatusCode resp =? expected) then
                    smclient.ret
                      (onError (ErrResponse (errors.ofStatusCode (http.RespStatusCode resp))))
                  else smclient.ret (onSuccess resp))
         end) w in
  (http.RespStatusCode resp = expected -> outcome = (smclient.Return (onSuccess resp), w'))
  /\ (http.RespStatusCode resp <> expected ->
      exists e, outcome = (smclient.Return (onError (ErrResponse e)), w')
                /\ errors.StatusCode e = http.RespStatusCode resp).
Proof.
  intros Hans Hexp outcome. subst outcome. split.
  - intros Hcode. erewrite bind_Return; [| apply (Call_success _ _ _ _ _ _ _ _ _ Hans)].
    + monad. rewrite Hcode, Z.eqb_refl. reflexivity.
    + unfold failureStatus. lia.
  - intros Hcode.
    destruct (Z.le_gt_cases 200 (http.RespStatusCode resp)) as [Hlo|Hlo];
      [destruct (Z.le_gt_cases (http.RespStatusCode resp) 299) as [Hhi|Hhi] |].
    + erewrite bind_Return; [| apply (Call_success _ _ _ _ _ _ _ _ _ Hans)].
      * monad. apply Z.eqb_neq in Hcode. rewrite Hcode. cbn.
        eexists. split; reflexivity.
      * unfold failureStatus. lia.
    + destruct (Call_failure _ _ _ _ _ _ _ _ _ Hans) as (r & e & Hcall & Hst & _);
        [right; lia |].
      erewrite bind_Return; [| exact Hcall]. monad. eexists. split; [reflexivity | exact Hst].
    + destruct (Call_failure _ _ _ _ _ _ _ _ _ Hans) as (r & e & Hcall & Hst & _);
        [left; lia |].
      erewrite bind_Return; [| exact Hcall]. monad. eexists. split; [reflexivity | exact Hst].
Qed.

Lemma mapsStatus_intro {T : Type} `{!httputil.Unmarshaler T} (expected : Z)
    (resp : http.Response) (result : T) (run : smclient.Outcome (T * option error) * smclient.W)
    (w' : smclient.W) :
  (http.RespStatusCode resp = expected ->
     run = (smclient.Return (httputil.UnmarshalResponse resp result), w')) ->
  (http.RespStatusCode resp <> expected ->
     exists e, run = (smclient.Return (result, Some (ErrResponse e)), w')
               /\ errors.StatusCode e = http.RespStatusCode resp) ->
  exists outcome, run = (outcome, w') /\ mapsStatus expected resp result outcome.
Proof.
  intros Hyes Hno. destruct (Z.eq_dec (http.RespStatusCode resp) expected) as [Heq|Hne].
  - exists (smclient.Return (httputil.UnmarshalResponse resp result)).
    split; [exact (Hyes Heq) |]. split; [| contradiction].
    intros _. split; [reflexivity |]. intros v ->. reflexivity.
  - destruct (Hno Hne) as (e & Hrun & Hst).
    exists (smclient.Return (result, Some (ErrResponse e))).
    split; [exact Hrun |]. split; [contradiction |]. intros _. exists e. auto.
Qed.

Lemma mapsStatusNoBody_intro (expected : Z) (resp : http.Response)
    (run : smclient.Outcome (option error) * smclient.W) (w' : smclient.W) :
  (http.RespStatusCode resp = expected -> run = (smclient.Return None, w')) ->
  (http.RespStatusCode resp <> expected ->
     exists e, run = (smclient.Return (Some (ErrResponse e)), w')
               /\ errors.StatusCode e = http.RespStatusCode resp) ->
  exists outcome, run = (outcome, w') /\ mapsStatusNoBody expected resp outcome.
Proof.
  intros Hyes Hno. destruct (Z.eq_dec (http.RespStatusCode resp) expected) as [Heq|Hne].
  - exists (smclient.Return None). split; [exact (Hyes Heq) |]. split; [auto | contradiction].
  - destruct (Hno Hne) as (e & Hrun & Hst).
    exists (smclient.Return (Some (ErrResponse e))).
    split; [exact Hrun |]. split; [contradiction |]. intros _. exists e. auto.
Qed.

Section Operations.
Context {R T : Type} `{!json.Marshaler R} `{!httputil.Unmarshaler T}.
Variables (client : smclient.serviceManagerClient) (q : option query.Parameters).
Variables (w w' : smclient.W) (fullURL : string) (resp : http.Response).

Lemma register_maps (resource : R) (url requestBody : string) (result : T) :
  json.Marshal resource = inr requestBody ->
  answered client http.MethodPost url (Some requestBody) q w fullURL resp w' ->
  exists outcome,
    smclient.register client resource url q result w = (outcome, w')
    /\ mapsStatus http.StatusCreated resp result outcome.
Proof.
  intros Hm Hans. unfold smclient.register. rewrite Hm.
  destruct (after_Call client _ _ _ _ _ _ _ _ http.StatusCreated
              (fun e => (result, Some e)) (fun resp => httputil.UnmarshalResponse resp result)
              Hans) as [Hyes Hno]; [unfold http.StatusCreated; lia |].
  apply mapsStatus_intro; assumption.
Qed.

Lemma list_maps (url : string) (result : T) :
  answered client http.MethodGet url None q w fullURL resp w' ->
  exists outcome,
    smclient.list client result url q w = (outcome, w')
    /\ mapsStatus http.StatusOK resp result outcome.
Proof.
  intros Hans. unfold smclient.list.
  destruct (after_Call client _ _ _ _ _ _ _ _ http.StatusOK
              (fun e => (result, Some e)) (fun resp => httputil.UnmarshalResponse resp result)
              Hans) as [Hyes Hno]; [unfold http.StatusOK; lia |].
  apply mapsStatus_intro; assumption.
Qed.

Lemma update_maps (resource : R) (url id requestBody : string) (result : T) :
  json.Marshal resource = inr requestBody ->
  answered client http.MethodPatch (url +:+ "/" +:+ id) (Some requestBody) q w fullURL resp w' ->
  exists outcome,
    smclient.update client resource url id q result w = (outcome, w')
    /\ mapsStatus http.StatusOK resp result outcome.
Proof.
  intros Hm Hans. unfold smclient.update. rewrite Hm.
  destruct (after_Call client _ _ _ _ _ _ _ _ http.StatusOK
              (fun e => (result, Some e)) (fun resp => httputil.UnmarshalResponse resp result)
              Hans) as [Hyes Hno]; [unfold http.StatusOK; lia |].
  apply mapsStatus_intro; assumption.
Qed.

Lemma delete_maps (url : string) :
  answered client http.MethodDelete url None q w fullURL resp w' ->
  exists outcome,
    smclient.delete client url q w = (outcome, w')
    /\ mapsStatusNoBody http.StatusOK resp outcome.
Proof.
  intros Hans. unfold smclient.delete.
  destruct (after_Call client _ _ _ _ _ _ _ _ http.StatusOK
              (fun e => Some e) (fun _ => None) Hans) as [Hyes Hno];
    [unfold http.StatusOK; lia |].
  apply mapsStatusNoBody_intro; assumption.
Qed.

Lemma Label_maps (change : R) (url id requestBody : string) :
  json.Marshal change = inr requestBody ->
  answered client http.MethodPatch (url +:+ "/" +:+ id) (Some requestBody) q w fullURL resp w' ->
  exists outcome,
    smclient.Label client url id change q w = (outcome, w')
    /\ mapsStatusNoBody http.StatusOK resp outcome.
Proof.
  intros Hm Hans. unfold smclient.Label. rewrite Hm.
  destruct (after_Call client _ _ _ _ _ _ _ _ http.StatusOK
              (fun e => Some e) (fun _ => None) Hans) as [Hyes Hno];
    [unfold http.StatusOK; lia |].
  apply mapsStatusNoBody_intro; assumption.
Qed.

(** C2, as the code has it: once the server has answered, [register]
    returns the decoded value and no error when the status is 201 and the
    body decodes, [list] and [update] do so when the status is 200, and
    [delete], which returns an error only, returns none when the status is
    200; with any other status each of them leaves the result unset and
    returns a Resource Error carrying that status. *)
Theorem crud_status_mapping (resource : R) (url id requestBody : string) (result : T) :
  json.Marshal resource = inr requestBody ->
  (answered client http.MethodPost url (Some requestBody) q w fullURL resp w' ->
   exists outcome,
     smclient.register client resource url q result w = (outcome, w')
     /\ mapsStatus 201 resp result outcome)
  /\ (answered client http.MethodGet url None q w fullURL resp w' ->
      exists outcome,
        smclient.list client result url q w = (outcome, w')
        /\ mapsStatus 200 resp result outcome)
  /\ (answered client http.MethodPatch (url +:+ "/" +:+ id) (Some requestBody) q w
        fullURL resp w' ->
      exists outcome,
        smclient.update client resource url id q result w = (outcome, w')
        /\ mapsStatus 200 resp result outcome)
  /\ (answered client http.MethodDelete url None q w fullURL resp w' ->
      exists outcome,
        smclient.delete client url q w = (outcome, w')
        /\ mapsStatusNoBody 200 resp outcome).
Proof.
  intros Hm. repeat split.
  - apply register_maps, Hm.
  - apply list_maps.
  - apply update_maps, Hm.
  - apply delete_maps.
Qed.

End Operations.

(** C3: when the server answers with a status outside 200-299 and the
    body decodes to an object whose "error" and "description" members are
    strings, the error [Call] returns is the Resource Error with the
    status, the request URL and exactly those two strings; when the body
    does not decode, [Call] still returns the Resource Error with the
    status and the request URL, its message and description left empty,
    and not the decoding error. *)
Theorem error_body_best_effort (client : smclient.serviceManagerClient) (method : http.Method)
    (smpath : string) (body : option string) (q : option query.Parameters)
    (w w' : smclient.W) (fullURL : string) (resp : http.Response) :
  answered client method smpath body q w fullURL resp w' ->
  failureStatus (http.RespStatusCode resp) ->
  (forall (content : gmap string json.Value) (errorMessage description : string),
      httputil.UnmarshalResponse resp (∅ : gmap string json.Value) = (content, None) ->
      content !! "error" = Some (json.String errorMessage) ->
      content !! "description" = Some (json.String description) ->
      smclient.Call client method smpath body q w =
      (smclient.Return
         (None, Some (ErrResponse {| errors.StatusCode := http.RespStatusCode resp;
                                     errors.URL := fullURL;
                                     errors.ErrorMessage := errorMessage;
                                     errors.Description := description |})), w'))
  /\ (forall (content : gmap string json.Value) (decodeErr : error),
        httputil.UnmarshalResponse resp (∅ : gmap string json.Value)
        = (content, Some decodeErr) ->
        exists r,
          smclient.Call client method smpath body q w =
          (smclient.Return
             (r, Some (ErrResponse {| errors.StatusCode := http.RespStatusCode resp;
                                      errors.URL := fullURL;
                                      errors.ErrorMessage := "";
                                      errors.Description := "" |})), w')).
Proof.
  intros Hans Hko. rewrite (Call_answered _ _ _ _ _ _ _ _ _ Hans).
  assert (Hb : (http.RespStatusCode resp <? 200) || (299 <? http.RespStatusCode resp) = true).
  { apply orb_true_iff. rewrite !Z.ltb_lt. exact Hko. }
  rewrite Hb. cbn zeta. split.
  - intros content errorMessage description -> Herror Hdescription. cbn [fst snd].
    rewrite Herror, Hdescription. reflexivity.
  - intros content decodeErr ->. cbn [fst snd]. eexists. reflexivity.
Qed.

(** *** Nil query parameters *)

Lemma Call_total (client : smclient.serviceManagerClient) (method : http.Method)
    (smpath : string) (body : option string) (q : option query.Parameters) (w : smclient.W) :
  smclient.config client <> None ->
  smclient.httpClient client <> None ->
  exists r w',
    smclient.Call client method smpath body q w = (smclient.Return r, w')
    /\ (snd r = None -> fst r <> None).
Proof.
  intros Hcfg Hc. unfold smclient.Call.
  destruct (smclient.config client) as [cfg|]; [| contradiction].
  destruct (smclient.httpClient client) as [c|]; [| contradiction]. monad.
  destruct (http.NewRequest method _ body) as [err|req].
  - eexists _, _. split; [reflexivity | discriminate].
  - monad. destruct (smclient.Client_Do c _ w) as [[err|resp] w1].
    + eexists _, _. split; [reflexivity | discriminate].
    + destruct ((http.RespStatusCode resp <? 200) || (299 <? http.RespStatusCode resp)).
      * destruct (httputil.UnmarshalResponse resp ∅) as [content [err|]];
          eexists _, _; (split; [reflexivity | discriminate]).
      * eexists _, _. split; [reflexivity | discriminate].
Qed.

Lemma list_total {T : Type} `{!httputil.Unmarshaler T} (client : smclient.serviceManagerClient)
    (result : T) (url : string) (q : option query.Parameters) (w : smclient.W) :
  smclient.config client <> None ->
  smclient.httpClient client <> None ->
  exists r w', smclient.list client result url q w = (smclient.Return r, w').
Proof.
  intros Hcfg Hc.
  destruct (Call_total client http.MethodGet url None q w Hcfg Hc) as ([response err] & w' & Hcall & Hresp).
  unfold smclient.list. erewrite bind_Return; [| exact Hcall].
  destruct err as [e|]; [eexists _, _; reflexivity |].
  destruct response as [resp|]; [| destruct (Hresp eq_refl eq_refl)]. monad.
  destruct (negb (http.RespStatusCode resp =? http.StatusOK)); eexists _, _; reflexivity.
Qed.

(** C9: on a client that has its configuration and HTTP client,
    [ListOfferings] called with nil parameters panics as soon as the
    listing of the offerings succeeds with at least one offering, at the
    first read of [q.GeneralParams] and before any further request; while
    [ListPlatforms], [ListBrokers] and [ListVisibilities] called with nil
    parameters return. *)
Theorem ListOfferings_nil_parameters (client : smclient.serviceManagerClient) (w : smclient.W) :
  smclient.config client <> None ->
  smclient.httpClient client <> None ->
  (forall (offerings : types.ServiceOfferings smclient.ServicePlan) (w' : smclient.W),
      smclient.list client (types.mkServiceOfferings []) smclient.ServiceOfferingsURL None w
      = (smclient.Return (offerings, None), w') ->
      types.ServiceOfferings_ offerings <> [] ->
      smclient.ListOfferings client None w = (smclient.Panic, w'))
  /\ (exists r w', smclient.ListPlatforms client None w = (smclient.Return r, w'))
  /\ (exists r w', smclient.ListBrokers client None w = (smclient.Return r, w'))
  /\ (exists r w', smclient.ListVisibilities client None w = (smclient.Return r, w')).
Proof.
  intros Hcfg Hc. split; [| split; [| split]].
  - intros offerings w' Hlist Hne. unfold smclient.ListOfferings.
    erewrite bind_Return; [| exact Hlist]. cbn beta iota.
    destruct (types.ServiceOfferings_ offerings) as [|so rest]; [contradiction |].
    reflexivity.
  - destruct (list_total client smclient.zeroPlatforms smclient.PlatformsURL None w Hcfg Hc)
      as ([platforms err] & w' & Hlist).
    unfold smclient.ListPlatforms. erewrite bind_Return; [| exact Hlist].
    eexists _, _. reflexivity.
  - destruct (list_total client smclient.zeroBrokers smclient.ServiceBrokersURL None w Hcfg Hc)
      as ([brokers err] & w' & Hlist).
    unfold smclient.ListBrokers. erewrite bind_Return; [| exact Hlist].
    eexists _, _. reflexivity.
  - destruct (list_total client smclient.zeroVisibilities smclient.VisibilitiesURL None w Hcfg Hc)
      as ([visibilities err] & w' & Hlist).
    unfold smclient.ListVisibilities. erewrite bind_Return; [| exact Hlist].
    eexists _, _. reflexivity.
Qed.

(** *** Discovery *)

Lemma fetchOpenidConfiguration_status {W : Type} (issuerURL : string)
    (readConfigurationFunc : oidc.DoRequestFunc W) (w w' : W)
    (req : http.Request) (resp : http.Response) :
  http.NewRequest http.MethodGet (issuerURL +:+ "/.well-known/openid-configuration") None
  = inr req ->
  readConfigurationFunc req w = (http.DoResponse resp, w') ->
  http.RespStatusCode resp <> 200 ->
  oidc.fetchOpenidConfiguration issuerURL readConfigurationFunc w
  = ((None, Some (ErrNew "unexpected status code")), w').
Proof.
  intros Hreq Hdo Hcode. unfold oidc.fetchOpenidConfiguration. rewrite Hreq, Hdo.
  apply Z.eqb_neq in Hcode. unfold http.StatusOK. rewrite Hcode. reflexivity.
Qed.

(** C6: whatever answer other than 200 the discovery fetch gets,
    [fetchOpenidConfiguration] returns an error and no configuration; and
    when that happens during [NewClientWithAuth], after the info call has
    succeeded, [NewClientWithAuth] returns that error and no client. *)
Theorem discovery_failure_fails_construction :
  (forall (W : Type) (issuerURL : string) (readConfigurationFunc : oidc.DoRequestFunc W)
          (w w' : W) (req : http.Request) (resp : http.Response),
      http.NewRequest http.MethodGet (issuerURL +:+ "/.well-known/openid-configuration") None
      = inr req ->
      readConfigurationFunc req w = (http.DoResponse resp, w') ->
      http.RespStatusCode resp <> 200 ->
      exists err,
        oidc.fetchOpenidConfiguration issuerURL readConfigurationFunc w = ((None, Some err), w'))
  /\ (forall (httpClient : option smclient.auth_Client) (config : option smclient.ClientConfig)
             (cfg : smclient.ClientConfig) (info : types.Info) (w w1 w2 : smclient.W)
             (req : http.Request) (resp : http.Response),
        config = Some cfg ->
        smclient.GetInfo
          {| smclient.config := config;
             smclient.httpClient :=
               match httpClient with
               | None => Some smclient.http_DefaultClient
               | Some _ => httpClient
               end |} None w
        = (smclient.Return (Some info, None), w1) ->
        http.NewRequest http.MethodGet
          (types.TokenIssuerURL info +:+ "/.well-known/openid-configuration") None = inr req ->
        smclient.BuildHTTPClient_Do (smclient.SSLDisabled cfg) 0 req w1
        = (http.DoResponse resp, w2) ->
        http.RespStatusCode resp <> 200 ->
        exists err,
          smclient.NewClientWithAuth httpClient config w = (smclient.Return (None, Some err), w2)).
Proof.
  split.
  - intros W0 issuerURL f w w' req resp Hreq Hdo Hcode. eexists.
    apply (fetchOpenidConfiguration_status _ _ _ _ _ _ Hreq Hdo Hcode).
  - intros httpClient config cfg info w w1 w2 req resp -> Hinfo Hreq Hdo Hcode.
    exists (ErrNew "unexpected status code").
    unfold smclient.NewClientWithAuth. erewrite bind_Return; [| exact Hinfo]. monad.
    unfold smclient.NewOpenIDStrategy. monad. cbn [auth.IssuerURL auth.SSLDisabled auth.Timeout].
    rewrite (fetchOpenidConfiguration_status _ _ _ _ _ _ Hreq Hdo Hcode). reflexivity.
Qed.

End Normaliser.

(** ** The properties on the scripted environment *)

Section OnSample.
Import Sample.

(** The round trip on a seed with all four fields set, through a source
    that returns its cached token. *)
Lemma token_conversions_inverse_witness :
  let c := fst (oidc.NewClient options (Some refreshableSeed) (world [] [])) in
  oauth2.Token_ 500 (oidc.tokenSource c) (world [] [])
  = (inr (oidc.toOAuth2 (Some refreshableSeed)), oidc.tokenSource c, world [] [])
  /\ exists back c',
       oidc.Token 500 c (world [] []) = ((Some back, None), c', world [] [])
       /\ auth.AccessToken back = "access-1"
       /\ auth.RefreshToken back = "refresh-1"
       /\ auth.ExpiresIn back = 1000
       /\ auth.TokenType back = "bearer".
Proof.
  intros c. split; [vm_compute; reflexivity |].
  destruct (token_conversions_inverse (H := oauthEnv) options refreshableSeed 500
              (world [] []) (world [] []) (world [] []) (oidc.tokenSource c))
    as [(back & c' & Hback) _].
  - vm_compute. reflexivity.
  - exists back, c'. exact Hback.
Defined.

(** A seed without a refresh token that expires at 1000 is returned at
    instant 990. *)
Lemma seed_honoured_while_valid_witness :
  auth.RefreshToken boundSeed = ""
  /\ let c := fst (oidc.NewClient options (Some boundSeed) (world [] [])) in
     oidc.Token 990 c (world [] []) = ((Some boundSeed, None), c, world [] []).
Proof.
  split; [reflexivity |]. intros c.
  destruct (seed_honoured_while_valid (H := oauthEnv) options boundSeed (world [] []) eq_refl)
    as (_ & _ & Hvalid & _).
  destruct (Hvalid 990 (world [] []) eq_refl) as [_ Htoken]. exact Htoken.
Defined.


Ltac answered_here :=
  unfold answered; eexists _, _, _;
  split; [reflexivity |]; split; [reflexivity |]; split; [vm_compute; reflexivity |];
  split; [reflexivity | vm_compute; reflexivity].

(** C2 as stated fails: the server answers a registration with 200 and a
    body that decodes, and [register] returns no value and an error; it
    answers a listing with 201 and a body that decodes, and [list] returns
    no value and an error. *)
Lemma status_200_or_201_counterexample :
  let created := {| http.RespStatusCode := 201; http.RespBody := "platform-1" |} in
  let ok := {| http.RespStatusCode := 200; http.RespBody := "platform-1" |} in
  httputil.UnmarshalResponse ok (None : option string) = (Some "platform-1", None)
  /\ httputil.UnmarshalResponse created (None : option string) = (Some "platform-1", None)
  /\ smclient.register client "platform" "/v1/platforms" None (None : option string)
       (world [] [http.DoResponse ok])
     = (smclient.Return (None, Some (ErrResponse (errors.ofStatusCode 200))), world [] [])
  /\ smclient.list client (None : option string) "/v1/platforms" None
       (world [] [http.DoResponse created])
     = (smclient.Return (None, Some (ErrResponse (errors.ofStatusCode 201))), world [] []).
Proof. repeat split; vm_compute; reflexivity. Qed.

(** A registration answered with 201 and a body that decodes. *)
Lemma crud_status_mapping_witness :
  let created := {| http.RespStatusCode := 201; http.RespBody := "platform-1" |} in
  json.Marshal "platform" = inr "platform"
  /\ answered client http.MethodPost "/v1/platforms" (Some "platform") None
       (world [] [http.DoResponse created]) "https://sm.example.com/v1/platforms"
       created (world [] [])
  /\ smclient.register client "platform" "/v1/platforms" None (None : option string)
       (world [] [http.DoResponse created])
     = (smclient.Return (Some "platform-1", None), world [] []).
Proof.
  intros created. split; [reflexivity |].
  assert (Hans : answered client http.MethodPost "/v1/platforms" (Some "platform") None
                   (world [] [http.DoResponse created]) "https://sm.example.com/v1/platforms"
                   created (world [] [])) by answered_here.
  split; [exact Hans |].
  destruct (crud_status_mapping (H := env) (T := option string) client None
              (world [] [http.DoResponse created]) (world [] [])
              "https://sm.example.com/v1/platforms" created
              "platform" "/v1/platforms" "" "platform" None eq_refl) as [Hregister _].
  destruct (Hregister Hans) as (outcome & Hrun & [Hcreated _]).
  destruct (Hcreated eq_refl) as [_ Hdecoded].
  etransitivity; [exact Hrun |].
  rewrite (Hdecoded (Some "platform-1") eq_refl). reflexivity.
Defined.

(** An answer 401 whose body carries both members. *)
Lemma error_body_best_effort_witness :
  let unauthorized :=
    {| http.RespStatusCode := 401; http.RespBody := "error=invalid_token description=expired" |} in
  answered client http.MethodGet "/v1/platforms" None None
    (world [] [http.DoResponse unauthorized]) "https://sm.example.com/v1/platforms"
    unauthorized (world [] [])
  /\ failureStatus 401
  /\ smclient.Call client http.MethodGet "/v1/platforms" None None
       (world [] [http.DoResponse unauthorized])
     = (smclient.Return
          (None, Some (ErrResponse {| errors.StatusCode := 401;
                                      errors.URL := "https://sm.example.com/v1/platforms";
                                      errors.ErrorMessage := "invalid_token";
                                      errors.Description := "expired" |})), world [] []).
Proof.
  intros unauthorized.
  assert (Hans : answered client http.MethodGet "/v1/platforms" None None
                   (world [] [http.DoResponse unauthorized])
                   "https://sm.example.com/v1/platforms" unauthorized (world [] []))
    by answered_here.
  assert (Hko : failureStatus 401) by (right; reflexivity).
  split; [exact Hans |]. split; [exact Hko |].
  destruct (error_body_best_effort (H := env) client http.MethodGet "/v1/platforms" None None
              (world [] [http.DoResponse unauthorized]) (world [] [])
              "https://sm.example.com/v1/platforms" unauthorized Hans Hko) as [Hdecoded _].
  apply (Hdecoded (<["error" := json.String "invalid_token"]>
                     (<["description" := json.String "expired"]> ∅))).
  - reflexivity.
  - vm_compute. reflexivity.
  - vm_compute. reflexivity.
Defined.

(** C4 at a failing input: the server answers the registration request
    for https://sm.example.com/v1/platforms with 200, and the Resource
    Error [register] returns has the status and an empty URL. *)
Lemma register_error_without_url :
  let ok := {| http.RespStatusCode := 200; http.RespBody := "platform-1" |} in
  answered client http.MethodPost "/v1/platforms" (Some "platform") None
    (world [] [http.DoResponse ok]) "https://sm.example.com/v1/platforms" ok (world [] [])
  /\ smclient.register client "platform" "/v1/platforms" None (None : option string)
       (world [] [http.DoResponse ok])
     = (smclient.Return
          (None, Some (ErrResponse {| errors.StatusCode := 200; errors.URL := "";
                                      errors.ErrorMessage := ""; errors.Description := "" |})),
        world [] []).
Proof. intros ok. split; [answered_here | vm_compute; reflexivity]. Qed.

(** C5 at a failing input: the server answers 500 with a body that does
    not decode, and [Call] returns the response together with the error. *)
Lemma Call_returns_response_and_error :
  let broken := {| http.RespStatusCode := 500; http.RespBody := "<html>" |} in
  smclient.Call client http.MethodGet "/v1/platforms" None None
    (world [] [http.DoResponse broken])
  = (smclient.Return
       (Some broken,
        Some (ErrResponse {| errors.StatusCode := 500;
                             errors.URL := "https://sm.example.com/v1/platforms";
                             errors.ErrorMessage := ""; errors.Description := "" |})),
     world [] []).
Proof. vm_compute. reflexivity. Qed.

(** One offering listed, nil parameters. *)
Lemma ListOfferings_nil_parameters_witness :
  smclient.config client <> None
  /\ smclient.httpClient client <> None
  /\ smclient.ListOfferings client None (world [] [answer 200 "offering-1"])
     = (smclient.Panic, world [] []).
Proof.
  split; [discriminate |]. split; [discriminate |].
  destruct (ListOfferings_nil_parameters (H := env) client (world [] [answer 200 "offering-1"]))
    as [Hpanic _]; [discriminate | discriminate |].
  apply (Hpanic (types.mkServiceOfferings [offeringNamed "offering-1"])).
  - vm_compute. reflexivity.
  - discriminate.
Defined.

(** The info call succeeds and the discovery fetch is answered with 503. *)
Lemma discovery_failure_fails_construction_witness :
  let config := smclient.mkClientConfig "https://sm.example.com" "cli" "secret" false in
  let script := [answer 200 "https://uaa.example.com"; answer 503 "down"] in
  exists err,
    smclient.NewClientWithAuth None (Some config) (world [] script)
    = (smclient.Return (None, Some err), world [] []).
Proof.
  intros config script.
  destruct (discovery_failure_fails_construction (H := env)) as [_ Hconstruction].
  apply (Hconstruction None (Some config) config (types.mkInfo "https://uaa.example.com")
           (world [] script) (world [] [answer 503 "down"]) (world [] [])
           (http.mkRequest http.MethodGet
              "https://uaa.example.com/.well-known/openid-configuration" None [])
           {| http.RespStatusCode := 503; http.RespBody := "down" |}).
  - reflexivity.
  - vm_compute. reflexivity.
  - vm_compute. reflexivity.
  - vm_compute. reflexivity.
  - discriminate.
Defined.

End OnSample.

(** ** More of [client.go]: requests, errors and results *)

Ltac monad :=
  unfold smclient.bind, smclient.deref, smclient.ret, smclient.lift; cbn beta iota.

Section Requests.
Context `{smclient.Env}.

(** X1: on a client that has its configuration and HTTP client, when the
    URL parses, [Call] hands [Do] exactly one request, the one with the
    given method and body, the normalised base URL followed by the built
    path, and the JSON content type as its only header; decoding the
    answer changes nothing in the world. *)
Theorem Call_sends_one_request (client : smclient.serviceManagerClient) (method : http.Method)
    (smpath : string) (body : option string) (q : option query.Parameters) (w : smclient.W)
    (cfg : smclient.ClientConfig) (c : smclient.auth_Client) :
  smclient.config client = Some cfg ->
  smclient.httpClient client = Some c ->
  let fullURL := smclient.NormalizeURL (smclient.URL cfg) +:+ smclient.buildURL smpath q in
  http.url_Parse_error fullURL = None ->
  snd (smclient.Call client method smpath body q w)
  = snd (smclient.Client_Do c (requestOf method fullURL body) w)
  /\ (forall err, fst (smclient.Client_Do c (requestOf method fullURL body) w) = http.DoError err ->
        fst (smclient.Call client method smpath body q w) = smclient.Return (None, Some err)).
Proof.
  intros Hcfg Hc fullURL Hurl. unfold smclient.Call. rewrite Hcfg. monad. fold fullURL.
  unfold http.NewRequest. rewrite Hurl, Hc. monad. fold (requestOf method fullURL body).
  destruct (smclient.Client_Do c (requestOf method fullURL body) w) as [[err|resp] w1].
  - split; [reflexivity |]. intros err' [= <-]. reflexivity.
  - split; [| discriminate].
    destruct ((http.RespStatusCode resp <? 200) || (299 <? http.RespStatusCode resp));
      [| reflexivity].
    destruct (httputil.UnmarshalResponse resp ∅) as [content [err|]]; reflexivity.
Qed.

(** X2: when the URL of the request does not parse, [Call] returns the
    parser's error and no response, and sends nothing: the world is as it
    was.  This holds of a client without an HTTP client too. *)
Theorem Call_bad_url_sends_nothing (client : smclient.serviceManagerClient)
    (method : http.Method) (smpath : string) (body : option string)
    (q : option query.Parameters) (w : smclient.W) (cfg : smclient.ClientConfig) (err : error) :
  smclient.config client = Some cfg ->
  http.url_Parse_error
    (smclient.NormalizeURL (smclient.URL cfg) +:+ smclient.buildURL smpath q) = Some err ->
  smclient.Call client method smpath body q w = (smclient.Return (None, Some err), w).
Proof.
  intros Hcfg Hurl. unfold smclient.Call. rewrite Hcfg. monad.
  unfold http.NewRequest. rewrite Hurl. reflexivity.
Qed.

(** X3: an answer outside 200-299 whose body decodes yields the Resource
    Error with the status, the request URL, and for message and
    description the strings found under "error" and "description", each on
    its own: a member that is missing or is not a string leaves its field
    empty and does not affect the other. *)
Theorem Call_error_fields (client : smclient.serviceManagerClient) (method : http.Method)
    (smpath : string) (body : option string) (q : option query.Parameters)
    (w w' : smclient.W) (fullURL : string) (resp : http.Response)
    (content : gmap string json.Value) :
  answered client method smpath body q w fullURL resp w' ->
  failureStatus (http.RespStatusCode resp) ->
  httputil.UnmarshalResponse resp (∅ : gmap string json.Value) = (content, None) ->
  smclient.Call client method smpath body q w =
  (smclient.Return
     (None, Some (ErrResponse {| errors.StatusCode := http.RespStatusCode resp;
                                 errors.URL := fullURL;
                                 errors.ErrorMessage := stringMember content "error";
                                 errors.Description := stringMember content "description" |})),
   w').
Proof.
  intros Hans Hko Hdec. rewrite (Call_answered _ _ _ _ _ _ _ _ _ Hans).
  assert (Hb : (http.RespStatusCode resp <? 200) || (299 <? http.RespStatusCode resp) = true).
  { apply orb_true_iff. rewrite !Z.ltb_lt. exact Hko. }
  rewrite Hb, Hdec. cbn [fst snd]. unfold stringMember.
  destruct (json.assert_string (content !! "error")),
           (json.assert_string (content !! "description")); reflexivity.
Qed.

(** X4: whatever [Call] returns, it is a response or an error, never
    neither; a response comes without an error exactly for a status in
    200-299, and a response comes together with an error only for a status
    outside 200-299 whose body does not decode. *)
Theorem Call_result_cases (client : smclient.serviceManagerClient) (method : http.Method)
    (smpath : string) (body : option string) (q : option query.Parameters)
    (w w' : smclient.W) (response : option http.Response) (err : option error) :
  smclient.Call client method smpath body q w = (smclient.Return (response, err), w') ->
  (response <> None \/ err <> None)
  /\ (err = None ->
      exists resp, response = Some resp /\ 200 <= http.RespStatusCode resp <= 299)
  /\ (forall resp, response = Some resp -> err <> None ->
      failureStatus (http.RespStatusCode resp)
      /\ snd (httputil.UnmarshalResponse resp (∅ : gmap string json.Value)) <> None).
Proof.
  intros Hcall. pose proof (Call_result_shape _ _ _ _ _ _ _ _ Hcall) as Hshape.
  destruct response as [resp|], err as [e|]; cbn in Hshape.
  - split; [left; discriminate |]. split; [discriminate |].
    intros resp' [= <-] _. exact Hshape.
  - split; [left; discriminate |]. split; [| intros resp' _ Hne; contradiction].
    intros _. exists resp. split; [reflexivity |]. unfold failureStatus in Hshape. lia.
  - split; [right; discriminate |]. split; discriminate.
  - contradiction.
Qed.

End Requests.

Section Propagation.
Context `{smclient.Env} {R T : Type} `{!json.Marshaler R} `{!httputil.Unmarshaler T}.
Variables (client : smclient.serviceManagerClient) (q : option query.Parameters).
Variables (w w' : smclient.W).

(** X5: an error returned by [Call] is returned as it is by the operation
    that made the call, whatever response came with it, and the result is
    left as the caller passed it: [register], [list], [update], [delete],
    [Label] and [GetInfo] neither wrap the error nor look at the response. *)
Theorem operations_return_Call_error (resource : R) (url id requestBody : string) (result : T)
    (response : option http.Response) (e : error) :
  json.Marshal resource = inr requestBody ->
  (smclient.Call client http.MethodPost url (Some requestBody) q w
   = (smclient.Return (response, Some e), w') ->
   smclient.register client resource url q result w = (smclient.Return (result, Some e), w'))
  /\ (smclient.Call client http.MethodGet url None q w
      = (smclient.Return (response, Some e), w') ->
      smclient.list client result url q w = (smclient.Return (result, Some e), w'))
  /\ (smclient.Call client http.MethodPatch (url +:+ "/" +:+ id) (Some requestBody) q w
      = (smclient.Return (response, Some e), w') ->
      smclient.update client resource url id q result w = (smclient.Return (result, Some e), w')
      /\ smclient.Label client url id resource q w = (smclient.Return (Some e), w'))
  /\ (smclient.Call client http.MethodDelete url None q w
      = (smclient.Return (response, Some e), w') ->
      smclient.delete client url q w = (smclient.Return (Some e), w'))
  /\ (smclient.Call client http.MethodGet smclient.InfoURL None q w
      = (smclient.Return (response, Some e), w') ->
      smclient.GetInfo client q w = (smclient.Return (None, Some e), w')).
Proof.
  intros Hm. split; [| split; [| split; [| split]]]; intros Hcall.
  - unfold smclient.register. rewrite Hm. erewrite bind_Return; [| exact Hcall]. reflexivity.
  - unfold smclient.list. erewrite bind_Return; [| exact Hcall]. reflexivity.
  - unfold smclient.update, smclient.Label. rewrite Hm.
    split; (erewrite bind_Return; [| exact Hcall]); reflexivity.
  - unfold smclient.delete. erewrite bind_Return; [| exact Hcall]. reflexivity.
  - unfold smclient.GetInfo. erewrite bind_Return; [| exact Hcall]. reflexivity.
Qed.

(** X6: when the resource cannot be marshalled, [register], [update] and
    [Label] return the marshalling error, leave the result as it was and
    send nothing; this happens before the client's configuration is read,
    so also on a client that has none. *)
Theorem marshal_failure_sends_nothing (resource : R) (url id : string) (result : T)
    (e : error) :
  json.Marshal resource = inl e ->
  smclient.register client resource url q result w = (smclient.Return (result, Some e), w)
  /\ smclient.update client resource url id q result w = (smclient.Return (result, Some e), w)
  /\ smclient.Label client url id resource q w = (smclient.Return (Some e), w).
Proof.
  intros Hm. unfold smclient.register, smclient.update, smclient.Label. rewrite Hm.
  repeat split.
Qed.

End Propagation.

Section Info.
Context `{smclient.Env}.
Variables (client : smclient.serviceManagerClient) (q : option query.Parameters).
Variables (w w' : smclient.W).

(** X7: whenever [GetInfo] returns, it returns the info or an error and
    not both; in particular an info that failed to decode is dropped. *)
Theorem GetInfo_exactly_one (r : option types.Info * option error) :
  smclient.GetInfo client q w = (smclient.Return r, w') -> exactlyOne r.
Proof.
  unfold smclient.GetInfo, smclient.bind.
  destruct (smclient.Call client http.MethodGet smclient.InfoURL None q w)
    as [[[response [e|]]|] w1]; [intros [= <- _]; exact I | | discriminate].
  destruct response as [resp|]; [| discriminate]. monad.
  destruct (negb (http.RespStatusCode resp =? http.StatusOK)); [intros [= <- _]; exact I |].
  destruct (httputil.UnmarshalResponse resp smclient.DefaultInfo) as [info [e|]];
    intros [= <- _]; exact I.
Qed.

(** X8: once the server has answered the info request, [GetInfo] returns
    the info decoded over [DefaultInfo] when the status is 200 and the
    body decodes, the decoding error and no info when it does not, and for
    any other status a Resource Error with that status and no info. *)
Theorem GetInfo_status_mapping (fullURL : string) (resp : http.Response) :
  answered client http.MethodGet smclient.InfoURL None q w fullURL resp w' ->
  (http.RespStatusCode resp = 200 ->
   smclient.GetInfo client q w =
   (smclient.Return
      match httputil.UnmarshalResponse resp smclient.DefaultInfo with
      | (info, None) => (Some info, None)
      | (_, Some e) => (None, Some e)
      end, w'))
  /\ (http.RespStatusCode resp <> 200 ->
      exists e,
        smclient.GetInfo client q w = (smclient.Return (None, Some (ErrResponse e)), w')
        /\ errors.StatusCode e = http.RespStatusCode resp).
Proof.
  intros Hans. split.
  - intros Hcode. unfold smclient.GetInfo.
    erewrite bind_Return; [| apply (Call_success _ _ _ _ _ _ _ _ _ Hans)].
    + monad. unfold http.StatusOK. rewrite Hcode. cbn [Z.eqb Pos.eqb negb].
      destruct (httputil.UnmarshalResponse resp smclient.DefaultInfo) as [info [e|]];
        reflexivity.
    + unfold failureStatus. lia.
  - intros Hcode. unfold smclient.GetInfo.
    destruct (Z.le_gt_cases 200 (http.RespStatusCode resp)) as [Hlo|Hlo];
      [destruct (Z.le_gt_cases (http.RespStatusCode resp) 299) as [Hhi|Hhi] |].
    + erewrite bind_Return; [| apply (Call_success _ _ _ _ _ _ _ _ _ Hans)].
      * monad. unfold http.StatusOK. apply Z.eqb_neq in Hcode. rewrite Hcode. cbn [negb].
        eexists. split; reflexivity.
      * unfold failureStatus. lia.
    + destruct (Call_failure _ _ _ _ _ _ _ _ _ Hans) as (r & e & Hcall & Hst & _);
        [right; lia |].
      erewrite bind_Return; [| exact Hcall]. eexists. split; [reflexivity | exact Hst].
    + destruct (Call_failure _ _ _ _ _ _ _ _ _ Hans) as (r & e & Hcall & Hst & _);
        [left; lia |].
      erewrite bind_Return; [| exact Hcall]. eexists. split; [reflexivity | exact Hst].
Qed.

(** X9: [ListBrokers], [ListPlatforms] and [ListVisibilities] hand back a
    result value whenever they return, with or without an error; when the
    call itself fails the value is the empty one they allocated. *)
Theorem List_wrappers_always_return_a_value :
  (forall r, smclient.ListBrokers client q w = (smclient.Return r, w') -> fst r <> None)
  /\ (forall r, smclient.ListPlatforms client q w = (smclient.Return r, w') -> fst r <> None)
  /\ (forall r, smclient.ListVisibilities client q w = (smclient.Return r, w') -> fst r <> None)
  /\ (forall response e,
        smclient.Call client http.MethodGet smclient.ServiceBrokersURL None q w
        = (smclient.Return (response, Some e), w') ->
        smclient.ListBrokers client q w
        = (smclient.Return (Some smclient.zeroBrokers, Some e), w'))
  /\ (forall response e,
        smclient.Call client http.MethodGet smclient.PlatformsURL None q w
        = (smclient.Return (response, Some e), w') ->
        smclient.ListPlatforms client q w
        = (smclient.Return (Some smclient.zeroPlatforms, Some e), w'))
  /\ (forall response e,
        smclient.Call client http.MethodGet smclient.VisibilitiesURL None q w
        = (smclient.Return (response, Some e), w') ->
        smclient.ListVisibilities client q w
        = (smclient.Return (Some smclient.zeroVisibilities, Some e), w')).
Proof.
  split; [| split; [| split; [| split; [| split]]]].
  - intros r. unfold smclient.ListBrokers, smclient.bind.
    destruct (smclient.list client smclient.zeroBrokers smclient.ServiceBrokersURL q w)
      as [[[v e]|] w1]; [intros [= <- _]; discriminate | discriminate].
  - intros r. unfold smclient.ListPlatforms, smclient.bind.
    destruct (smclient.list client smclient.zeroPlatforms smclient.PlatformsURL q w)
      as [[[v e]|] w1]; [intros [= <- _]; discriminate | discriminate].
  - intros r. unfold smclient.ListVisibilities, smclient.bind.
    destruct (smclient.list client smclient.zeroVisibilities smclient.VisibilitiesURL q w)
      as [[[v e]|] w1]; [intros [= <- _]; discriminate | discriminate].
  - intros response e Hcall. unfold smclient.ListBrokers, smclient.list.
    erewrite (bind_Return (smclient.bind _ _)); [| erewrite bind_Return; [| exact Hcall];
                                                   reflexivity].
    reflexivity.
  - intros response e Hcall. unfold smclient.ListPlatforms, smclient.list.
    erewrite (bind_Return (smclient.bind _ _)); [| erewrite bind_Return; [| exact Hcall];
                                                   reflexivity].
    reflexivity.
  - intros response e Hcall. unfold smclient.ListVisibilities, smclient.list.
    erewrite (bind_Return (smclient.bind _ _)); [| erewrite bind_Return; [| exact Hcall];
                                                   reflexivity].
    reflexivity.
Qed.

End Info.

Section Offerings.
Context `{smclient.Env}.
Variable client : smclient.serviceManagerClient.

Lemma ListOfferings_range_total (qv : query.Parameters)
    (offerings : list (types.ServiceOffering smclient.ServicePlan)) (w : smclient.W) :
  smclient.config client <> None ->
  smclient.httpClient client <> None ->
  exists r w', smclient.ListOfferings_range client (Some qv) offerings w = (smclient.Return r, w').
Proof.
  intros Hcfg Hc. revert w. induction offerings as [|so rest IH]; intros w.
  - eexists _, _. reflexivity.
  - cbn [smclient.ListOfferings_range smclient.deref].
    erewrite bind_Return; [| reflexivity].
    destruct (list_total client (types.mkServicePlans []) smclient.ServicePlansURL
                (Some {| query.FieldQuery := ["service_offering_id = " +:+ types.ID so];
                         query.GeneralParams := query.GeneralParams qv |}) w Hcfg Hc)
      as ([plans err] & w1 & Hplans).
    erewrite bind_Return; [| exact Hplans]. cbn beta iota.
    destruct err as [e|]; [eexists _, _; reflexivity |].
    erewrite bind_Return; [| reflexivity].
    destruct (list_total client {| types.Name := "" |}
                (smclient.ServiceBrokersURL +:+ "/" +:+ types.BrokerID so)
                (Some {| query.FieldQuery := [];
                         query.GeneralParams := query.GeneralParams qv |}) w1 Hcfg Hc)
      as ([broker err] & w2 & Hbroker).
    erewrite bind_Return; [| exact Hbroker]. cbn beta iota.
    destruct err as [e|]; [eexists _, _; reflexivity |].
    destruct (IH w2) as (r & w3 & Hrest).
    erewrite bind_Return; [| exact Hrest].
    destruct r as [e|rest']; eexists _, _; reflexivity.
Qed.

Lemma ListOfferings_range_keeps (q : option query.Parameters)
    (offerings res : list (types.ServiceOffering smclient.ServicePlan)) (w w' : smclient.W) :
  smclient.ListOfferings_range client q offerings w = (smclient.Return (inr res), w') ->
  map types.ID res = map types.ID offerings
  /\ map types.BrokerID res = map types.BrokerID offerings.
Proof.
  revert res w w'. induction offerings as [|so rest IH]; intros res w w'.
  - intros [= <- _]. split; reflexivity.
  - cbn [smclient.ListOfferings_range]. destruct q as [qv|]; [| discriminate].
    unfold smclient.bind at 1. cbn [smclient.deref]. unfold smclient.ret at 1.
    unfold smclient.bind at 1.
    destruct (smclient.list client (types.mkServicePlans []) smclient.ServicePlansURL _ w)
      as [[[plans [e|]]|] w1]; try discriminate.
    unfold smclient.bind at 1. unfold smclient.ret at 1. unfold smclient.bind at 1.
    destruct (smclient.list client {| types.Name := "" |} _ _ w1)
      as [[[broker [e|]]|] w2]; try discriminate.
    unfold smclient.bind at 1.
    destruct (smclient.ListOfferings_range client (Some qv) rest w2)
      as [[[e|rest']|] w3] eqn:Hrest; try discriminate.
    intros [= <- _]. destruct (IH _ _ _ Hrest) as [Hid Hbroker].
    cbn [map types.ID types.BrokerID]. rewrite Hid, Hbroker. split; reflexivity.
Qed.

(** X10: on a client that has its configuration and HTTP client,
    [ListOfferings] called with parameters never panics: whatever the
    server answers, and however many offerings it lists, the call returns,
    and what it returns is the offerings or an error, not both. *)
Theorem ListOfferings_returns_with_parameters (qv : query.Parameters) (w : smclient.W) :
  smclient.config client <> None ->
  smclient.httpClient client <> None ->
  exists r w',
    smclient.ListOfferings client (Some qv) w = (smclient.Return r, w') /\ exactlyOne r.
Proof.
  intros Hcfg Hc. unfold smclient.ListOfferings.
  destruct (list_total client (types.mkServiceOfferings []) smclient.ServiceOfferingsURL
              (Some qv) w Hcfg Hc) as ([offerings err] & w1 & Hlist).
  erewrite bind_Return; [| exact Hlist]. cbn beta iota.
  destruct err as [e|]; [eexists _, _; split; [reflexivity | exact I] |].
  destruct (ListOfferings_range_total qv (types.ServiceOfferings_ offerings) w1 Hcfg Hc)
    as (r & w2 & Hrange).
  erewrite bind_Return; [| exact Hrange].
  destruct r as [e|res]; eexists _, _; (split; [reflexivity | exact I]).
Qed.

(** X11: when [ListOfferings] succeeds, the offerings it returns are the
    ones the server listed, one for one and in the same order, with their
    ids and broker ids untouched; only plans and broker name are filled in. *)
Theorem ListOfferings_keeps_offerings (q : option query.Parameters) (w w' : smclient.W)
    (result : types.ServiceOfferings smclient.ServicePlan) (err : option error) :
  smclient.ListOfferings client q w = (smclient.Return (Some result, err), w') ->
  exists listed w1,
    smclient.list client (types.mkServiceOfferings []) smclient.ServiceOfferingsURL q w
    = (smclient.Return (listed, None), w1)
    /\ err = None
    /\ length (types.ServiceOfferings_ result) = length (types.ServiceOfferings_ listed)
    /\ map types.ID (types.ServiceOfferings_ result)
       = map types.ID (types.ServiceOfferings_ listed)
    /\ map types.BrokerID (types.ServiceOfferings_ result)
       = map types.BrokerID (types.ServiceOfferings_ listed).
Proof.
  unfold smclient.ListOfferings. unfold smclient.bind at 1.
  destruct (smclient.list client (types.mkServiceOfferings []) smclient.ServiceOfferingsURL q w)
    as [[[listed [e|]]|] w1]; try discriminate.
  unfold smclient.bind at 1.
  destruct (smclient.ListOfferings_range client q (types.ServiceOfferings_ listed) w1)
    as [[[e|res]|] w2] eqn:Hrange; try discriminate.
  intros [= <- <- _]. destruct (ListOfferings_range_keeps _ _ _ _ _ Hrange) as [Hid Hbroker].
  exists listed, w1. split; [reflexivity |]. split; [reflexivity |].
  cbn [types.ServiceOfferings_]. split; [| split; assumption].
  apply (f_equal length) in Hid. rewrite !length_map in Hid. exact Hid.
Qed.

(** X12: when the server lists no offering, [ListOfferings] returns the
    empty listing as it is and makes no further request, whatever the
    parameters, nil included. *)
Theorem ListOfferings_no_offerings (q : option query.Parameters) (w w' : smclient.W)
    (listed : types.ServiceOfferings smclient.ServicePlan) :
  smclient.list client (types.mkServiceOfferings []) smclient.ServiceOfferingsURL q w
  = (smclient.Return (listed, None), w') ->
  types.ServiceOfferings_ listed = [] ->
  smclient.ListOfferings client q w = (smclient.Return (Some listed, None), w').
Proof.
  intros Hlist Hempty. unfold smclient.ListOfferings.
  erewrite bind_Return; [| exact Hlist]. cbn beta iota. rewrite Hempty.
  destruct listed as [offerings]. cbn in Hempty. subst offerings. reflexivity.
Qed.

End Offerings.

Section Construction.
Context `{smclient.Env}.

(** X13: without a configuration nothing can be called: [NewClientWithAuth]
    given a nil configuration panics on its first step, the info call, and
    [Call], [GetInfo], [list] and [delete] on a client whose configuration
    is nil panic as well, all before any request is sent. *)
Theorem nil_configuration_panics (httpClient : option smclient.auth_Client) (w : smclient.W) :
  smclient.NewClientWithAuth httpClient None w = (smclient.Panic, w)
  /\ (forall method smpath body q,
        smclient.Call {| smclient.config := None; smclient.httpClient := httpClient |}
          method smpath body q w = (smclient.Panic, w))
  /\ (forall q,
        smclient.GetInfo {| smclient.config := None; smclient.httpClient := httpClient |} q w
        = (smclient.Panic, w))
  /\ (forall q url (result : smclient.Brokers),
        smclient.list {| smclient.config := None; smclient.httpClient := httpClient |}
          result url q w = (smclient.Panic, w))
  /\ (forall q url,
        smclient.delete {| smclient.config := None; smclient.httpClient := httpClient |} url q w
        = (smclient.Panic, w)).
Proof. repeat split. Qed.


(** X15: a failure of the info call ends [NewClientWithAuth] at once: it
    returns that error and no client, in the world the info call left, so
    with no discovery fetch and no token request; and a failure to get the
    token after discovery is returned likewise, with no client built. *)
Theorem NewClientWithAuth_stops_at_first_error (httpClient : option smclient.auth_Client)
    (config : option smclient.ClientConfig) (w w1 : smclient.W) :
  let client :=
    {| smclient.config := config;
       smclient.httpClient :=
         match httpClient with
         | None => Some smclient.http_DefaultClient
         | Some _ => httpClient
         end |} in
  (forall info e,
      smclient.GetInfo client None w = (smclient.Return (info, Some e), w1) ->
      smclient.NewClientWithAuth httpClient config w = (smclient.Return (None, Some e), w1))
  /\ (forall info cfg authStrategy authOptions token e w2 w3,
        smclient.GetInfo client None w = (smclient.Return (Some info, None), w1) ->
        config = Some cfg ->
        smclient.NewOpenIDStrategy
          {| auth.IssuerURL := types.TokenIssuerURL info;
             auth.ClientID := smclient.ClientID cfg;
             auth.ClientSecret := smclient.ClientSecret cfg;
             auth.AuthorizationEndpoint := "";
             auth.TokenEndpoint := "";
             auth.SSLDisabled := smclient.SSLDisabled cfg;
             auth.Timeout := 0;
             auth.TokenBasicAuth := false |} w1
        = (smclient.Return (authStrategy, authOptions, None), w2) ->
        smclient.auth_GetToken authOptions authStrategy w2 = ((token, Some e), w3) ->
        smclient.NewClientWithAuth httpClient config w = (smclient.Return (None, Some e), w3)).
Proof.
  intros client. split.
  - intros info e Hinfo. unfold smclient.NewClientWithAuth. fold client.
    erewrite bind_Return; [| exact Hinfo]. reflexivity.
  - intros info cfg authStrategy authOptions token e w2 w3 Hinfo -> Hstrategy Htoken.
    unfold smclient.NewClientWithAuth. fold client.
    erewrite bind_Return; [| exact Hinfo]. cbn beta iota. cbn [smclient.deref].
    erewrite bind_Return; [| reflexivity]. erewrite bind_Return; [| reflexivity].
    erewrite bind_Return; [| exact Hstrategy]. cbn beta iota.
    erewrite bind_Return; [| unfold smclient.lift; rewrite Htoken; reflexivity].
    reflexivity.
Qed.

End Construction.

Section ResourceWrappers.
Context `{smclient.Env} {Platform Visibility : Type}.
Context (zeroPlatform : Platform) (zeroVisibility : Visibility).
Context `{!json.Marshaler (option Platform)} `{!httputil.Unmarshaler (option Platform)}.
Context `{!json.Marshaler (option types.Broker)} `{!httputil.Unmarshaler (option types.Broker)}.
Context `{!json.Marshaler (option Visibility)} `{!httputil.Unmarshaler (option Visibility)}.
Variables (client : smclient.serviceManagerClient) (q : option query.Parameters).
Variables (w w' : smclient.W).

Lemma wrapper_drops_value_on_error {A : Type} (m : smclient.M (option A * option error))
    (r : option A * option error) :
  smclient.bind m
    (fun r => let '(v, err) := r in
              match err with
              | Some e => smclient.ret (None, Some e)
              | None => smclient.ret (v, None)
              end) w = (smclient.Return r, w') ->
  snd r <> None -> fst r = None.
Proof.
  unfold smclient.bind. destruct (m w) as [[[v [e|]]|] w1]; [| | discriminate].
  - intros [= <- _] _. reflexivity.
  - intros [= <- _] Hne. contradiction.
Qed.

(** X16: the six methods that register or update a platform, a broker or
    a visibility never return a value together with an error: whenever
    one of them returns an error, the value it returns is nil, whatever
    the decoder had written by then. *)
Theorem Register_Update_drop_value_on_error (id : string) (platform : option Platform)
    (broker : option types.Broker) (visibility : option Visibility) :
  (forall r, smclient.RegisterPlatform client platform q w = (smclient.Return r, w') ->
             snd r <> None -> fst r = None)
  /\ (forall r, smclient.RegisterBroker client broker q w = (smclient.Return r, w') ->
                snd r <> None -> fst r = None)
  /\ (forall r, smclient.RegisterVisibility client visibility q w = (smclient.Return r, w') ->
                snd r <> None -> fst r = None)
  /\ (forall r, smclient.UpdatePlatform zeroPlatform client id platform q w
                = (smclient.Return r, w') ->
                snd r <> None -> fst r = None)
  /\ (forall r, smclient.UpdateBroker client id broker q w = (smclient.Return r, w') ->
                snd r <> None -> fst r = None)
  /\ (forall r, smclient.UpdateVisibility zeroVisibility client id visibility q w
                = (smclient.Return r, w') ->
                snd r <> None -> fst r = None).
Proof.
  split; [| split; [| split; [| split; [| split]]]]; intros r;
    apply wrapper_drops_value_on_error.
Qed.

(** X17: once the server has answered, [RegisterBroker] returns the broker
    decoded from the body when the status is 201 and the body decodes, and
    [UpdateBroker] the broker decoded over an empty one when the status is
    200 and the body decodes; a decoding error is returned with no broker,
    and any other status gives a Resource Error with that status and no
    broker. *)
Theorem Broker_wrappers_status_mapping (id requestBody fullURL : string)
    (broker : option types.Broker) (resp : http.Response) :
  json.Marshal broker = inr requestBody ->
  (answered client http.MethodPost smclient.ServiceBrokersURL (Some requestBody) q w
     fullURL resp w' ->
   (http.RespStatusCode resp = 201 ->
    smclient.RegisterBroker client broker q w =
    (smclient.Return
       match httputil.UnmarshalResponse resp (None : option types.Broker) with
       | (newBroker, None) => (newBroker, None)
       | (_, Some e) => (None, Some e)
       end, w'))
   /\ (http.RespStatusCode resp <> 201 ->
       exists e,
         smclient.RegisterBroker client broker q w
         = (smclient.Return (None, Some (ErrResponse e)), w')
         /\ errors.StatusCode e = http.RespStatusCode resp))
  /\ (answered client http.MethodPatch (smclient.ServiceBrokersURL +:+ "/" +:+ id)
        (Some requestBody) q w fullURL resp w' ->
      (http.RespStatusCode resp = 200 ->
       smclient.UpdateBroker client id broker q w =
       (smclient.Return
          match httputil.UnmarshalResponse resp (Some {| types.Name := "" |}) with
          | (result, None) => (result, None)
          | (_, Some e) => (None, Some e)
          end, w'))
      /\ (http.RespStatusCode resp <> 200 ->
          exists e,
            smclient.UpdateBroker client id broker q w
            = (smclient.Return (None, Some (ErrResponse e)), w')
            /\ errors.StatusCode e = http.RespStatusCode resp)).
Proof.
  intros Hm. split; intros Hans.
  - destruct (register_maps client q w w' fullURL resp broker smclient.ServiceBrokersURL
                requestBody (None : option types.Broker) Hm Hans)
      as (outcome & Hrun & Hyes & Hno).
    unfold smclient.RegisterBroker. split; intros Hcode.
    + destruct (Hyes Hcode) as [-> _]. erewrite bind_Return; [| exact Hrun].
      destruct (httputil.UnmarshalResponse resp None) as [newBroker [e|]]; reflexivity.
    + destruct (Hno Hcode) as (e & -> & Hst). erewrite bind_Return; [| exact Hrun].
      exists e. split; [reflexivity | exact Hst].
  - destruct (update_maps client q w w' fullURL resp broker smclient.ServiceBrokersURL id
                requestBody (Some {| types.Name := "" |}) Hm Hans)
      as (outcome & Hrun & Hyes & Hno).
    unfold smclient.UpdateBroker. split; intros Hcode.
    + destruct (Hyes Hcode) as [-> _]. erewrite bind_Return; [| exact Hrun].
      destruct (httputil.UnmarshalResponse resp (Some _)) as [result [e|]]; reflexivity.
    + destruct (Hno Hcode) as (e & -> & Hst). erewrite bind_Return; [| exact Hrun].
      exists e. split; [reflexivity | exact Hst].
Qed.

Lemma delete_succeeds_iff_200 (url fullURL : string) (resp : http.Response) :
  answered client http.MethodDelete url None q w fullURL resp w' ->
  (smclient.delete client url q w = (smclient.Return None, w')
   <-> http.RespStatusCode resp = 200)
  /\ exists err, smclient.delete client url q w = (smclient.Return err, w').
Proof.
  intros Hans. destruct (delete_maps client q w w' fullURL resp url Hans)
    as (outcome & Hrun & Hyes & Hno).
  rewrite Hrun. destruct (Z.eq_dec (http.RespStatusCode resp) 200) as [Hcode|Hcode].
  - rewrite (Hyes Hcode). split; [tauto | eexists; reflexivity].
  - destruct (Hno Hcode) as (e & -> & _). split; [| eexists; reflexivity].
    split; [discriminate | contradiction].
Qed.

(** X21: each of the six delete methods, once the server has answered its
    DELETE request, returns no error exactly when the status is 200, and
    an error otherwise; the methods that take an id address the
    collection's URL followed by a slash and the id. *)
Theorem Delete_wrappers_succeed_iff_200 (id fullURL : string) (resp : http.Response) :
  (answered client http.MethodDelete smclient.ServiceBrokersURL None q w fullURL resp w' ->
   (smclient.DeleteBrokers client q w = (smclient.Return None, w')
    <-> http.RespStatusCode resp = 200))
  /\ (answered client http.MethodDelete (smclient.ServiceBrokersURL +:+ "/" +:+ id) None q w
        fullURL resp w' ->
      (smclient.DeleteBroker client id q w = (smclient.Return None, w')
       <-> http.RespStatusCode resp = 200))
  /\ (answered client http.MethodDelete smclient.PlatformsURL None q w fullURL resp w' ->
      (smclient.DeletePlatforms client q w = (smclient.Return None, w')
       <-> http.RespStatusCode resp = 200))
  /\ (answered client http.MethodDelete (smclient.PlatformsURL +:+ "/" +:+ id) None q w
        fullURL resp w' ->
      (smclient.DeletePlatform client id q w = (smclient.Return None, w')
       <-> http.RespStatusCode resp = 200))
  /\ (answered client http.MethodDelete smclient.VisibilitiesURL None q w fullURL resp w' ->
      (smclient.DeleteVisibilities client q w = (smclient.Return None, w')
       <-> http.RespStatusCode resp = 200))
  /\ (answered client http.MethodDelete (smclient.VisibilitiesURL +:+ "/" +:+ id) None q w
        fullURL resp w' ->
      (smclient.DeleteVisibility client id q w = (smclient.Return None, w')
       <-> http.RespStatusCode resp = 200)).
Proof.
  split; [| split; [| split; [| split; [| split]]]]; intros Hans;
    apply (delete_succeeds_iff_200 _ _ _ Hans).
Qed.

End ResourceWrappers.

(** ** More of [common.go] *)

Section DiscoveryFetch.
Context {W : Type} `{http.URLParser} `{!httputil.Unmarshaler (option oidc.openIDConfiguration)}.
Variables (issuerURL : string) (readConfigurationFunc : oidc.DoRequestFunc W) (w : W).

(** X18: [fetchOpenidConfiguration] never returns a configuration
    together with an error, and a configuration comes only from an answer
    with status 200 whose body decoded without error. *)
Theorem fetchOpenidConfiguration_result :
  let r := fst (oidc.fetchOpenidConfiguration issuerURL readConfigurationFunc w) in
  (snd r <> None -> fst r = None)
  /\ (forall configuration, fst r = Some configuration ->
        exists resp w',
          readConfigurationFunc (discoveryRequest issuerURL) w = (http.DoResponse resp, w')
          /\ http.RespStatusCode resp = 200
          /\ httputil.UnmarshalResponse resp (None : option oidc.openIDConfiguration)
             = (Some configuration, None)).
Proof.
  unfold oidc.fetchOpenidConfiguration, http.NewRequest.
  destruct (http.url_Parse_error _) as [err|]; [cbn; split; [reflexivity | discriminate] |].
  fold (discoveryRequest issuerURL).
  destruct (readConfigurationFunc (discoveryRequest issuerURL) w) as [[err|resp] w1];
    [cbn; split; [reflexivity | discriminate] |].
  destruct (Z.eqb_spec (http.RespStatusCode resp) http.StatusOK) as [Hcode|Hcode];
    cbn [negb]; [| cbn; split; [reflexivity | discriminate]].
  destruct (httputil.UnmarshalResponse resp None) as [configuration [e|]] eqn:Hdec;
    cbn; (split; [try reflexivity | try discriminate]).
  - intros Hne. contradiction.
  - intros configuration' ->. exists resp, w1. repeat split; assumption.
Qed.

(** X19: when the discovery URL parses, [fetchOpenidConfiguration] calls
    the function it was given exactly once, with a GET of the issuer URL
    followed by /.well-known/openid-configuration, without body or
    headers, and returns its error unchanged if it fails; when the URL
    does not parse, the function is not called at all. *)
Theorem fetchOpenidConfiguration_request :
  (http.url_Parse_error (issuerURL +:+ "/.well-known/openid-configuration") = None ->
   snd (oidc.fetchOpenidConfiguration issuerURL readConfigurationFunc w)
   = snd (readConfigurationFunc (discoveryRequest issuerURL) w)
   /\ forall err,
        fst (readConfigurationFunc (discoveryRequest issuerURL) w) = http.DoError err ->
        fst (oidc.fetchOpenidConfiguration issuerURL readConfigurationFunc w)
        = (None, Some err))
  /\ (forall err,
        http.url_Parse_error (issuerURL +:+ "/.well-known/openid-configuration") = Some err ->
        oidc.fetchOpenidConfiguration issuerURL readConfigurationFunc w
        = ((None, Some err), w)).
Proof.
  unfold oidc.fetchOpenidConfiguration, http.NewRequest. split.
  - intros ->. fold (discoveryRequest issuerURL).
    destruct (readConfigurationFunc (discoveryRequest issuerURL) w) as [[err|resp] w1].
    + split; [reflexivity |]. intros err' [= <-]. reflexivity.
    + split; [| discriminate].
      destruct (negb (http.RespStatusCode resp =? http.StatusOK)); [reflexivity |].
      destruct (httputil.UnmarshalResponse resp None) as [configuration [e|]]; reflexivity.
  - intros err ->. reflexivity.
Qed.

End DiscoveryFetch.

Section SeededClients.
Context `{oauth2.Env}.

(** X20: [NewClient] talks to nobody: it makes no exchange with the token
    endpoint and leaves the network as it was; its only effect on the
    world is to register the issuer URL as a provider that wants the
    credentials in the request body, which it does exactly when
    [TokenBasicAuth] is off.  The client's timeout is the options'. *)
Theorem NewClient_stays_local (options : auth.Options) (token : option auth.Token)
    (w : oauth2.World oauth2.N) :
  let c := fst (oidc.NewClient options token w) in
  let w1 := snd (oidc.NewClient options token w) in
  oauth2.exchanges w1 = oauth2.exchanges w
  /\ oauth2.net w1 = oauth2.net w
  /\ oauth2.brokenAuthHeaderProviders w1
     = (if auth.TokenBasicAuth options then oauth2.brokenAuthHeaderProviders w
        else oauth2.brokenAuthHeaderProviders w ++ [auth.IssuerURL options])%list
  /\ oidc.httpClientTimeout c = auth.Timeout options.
Proof.
  cbn. destruct (auth.TokenBasicAuth options); cbn; repeat split.
Qed.

Lemma Token_stale (now : Time) (t : option oauth2.Token) (new : oauth2.TokenSource)
    (w : oauth2.World oauth2.N) :
  oauth2.cached now t = None ->
  oauth2.Token_ now (oauth2.reuseTokenSource t new) w =
  let '(r, new', w') := oauth2.Token_ now new w in
  match r with
  | inl err => (inl err, oauth2.reuseTokenSource t new', w')
  | inr tk => (inr tk, oauth2.reuseTokenSource (Some tk) new', w')
  end.
Proof. intros Hc. cbn. rewrite Hc. reflexivity. Qed.

Lemma cached_valid (now : Time) (tk : oauth2.Token) :
  oauth2.Valid now tk = true -> oauth2.cached now (Some tk) = Some tk.
Proof. intros Hv. unfold oauth2.cached. rewrite Hv. reflexivity. Qed.

Lemma cached_stale (now : Time) (tk : oauth2.Token) :
  oauth2.Valid now tk = false -> oauth2.cached now (Some tk) = None.
Proof. intros Hv. unfold oauth2.cached. rewrite Hv. reflexivity. Qed.

(** X22: a client built from a seed token that carries a refresh token
    returns that seed as long as it is valid, without any exchange and
    without changing: the refresh source is usable from the start. *)
Theorem refreshable_seed_returned_while_valid (options : auth.Options) (seed : auth.Token)
    (w : oauth2.World oauth2.N) (now : Time) (w1 : oauth2.World oauth2.N) :
  auth.RefreshToken seed <> "" ->
  oauth2.Valid now (oidc.toOAuth2 (Some seed)) = true ->
  let c := fst (oidc.NewClient options (Some seed) w) in
  oidc.Token now c w1 = ((Some seed, None), c, w1).
Proof.
  intros Hrt Hv c. rewrite Token_of_source. subst c. rewrite NewClient_tokenSource.
  apply String.eqb_neq in Hrt. rewrite Hrt. unfold oidc.refreshTokenSource, oauth2.Config_TokenSource.
  rewrite (Token_cached _ _ _ _ _ (cached_valid _ _ Hv)).
  rewrite toOAuth2_fromOAuth2. cbn. rewrite Hrt. reflexivity.
Qed.

(** X23: a client built from a seed token that carries a refresh token,
    asked for a token once the seed is no longer valid, makes exactly one
    exchange: a refresh grant with the seed's refresh token, and the client
    id, client secret and endpoints of the options.  If the endpoint
    answers with an error, the call returns it and the client stays as it
    was; if it answers with a token, the call returns that token (with the
    seed's refresh token when the answer has none), the client caches it,
    still as a refresh source, and returns it again without any exchange
    as long as it is valid. *)
Theorem stale_seed_is_refreshed (options : auth.Options) (seed : auth.Token)
    (w : oauth2.World oauth2.N) (now : Time) (w1 : oauth2.World oauth2.N) :
  auth.RefreshToken seed <> "" ->
  oauth2.Valid now (oidc.toOAuth2 (Some seed)) = false ->
  let c := fst (oidc.NewClient options (Some seed) w) in
  let g := oauth2.RefreshTokenGrant (contextOf options) (configOf options)
             (auth.RefreshToken seed) in
  let answer := oauth2.tokenEndpoint (oauth2.brokenAuthHeaderProviders w1) g (oauth2.net w1) in
  let w2 := afterExchange g (snd answer) w1 in
  match fst answer with
  | inl e => oidc.Token now c w1 = ((None, Some e), c, w2)
  | inr tk =>
      let tk' := refreshed (auth.RefreshToken seed) tk in
      exists c2,
        oidc.Token now c w1 = ((Some (oidc.fromOAuth2 tk'), None), c2, w2)
        /\ cachedToken (oidc.tokenSource c2) = Some tk'
        /\ refreshing (contextOf options) (configOf options) (oidc.tokenSource c2)
        /\ forall now' w3,
             oauth2.Valid now' tk' = true ->
             oidc.Token now' c2 w3 = ((Some (oidc.fromOAuth2 tk'), None), c2, w3)
  end.
Proof.
  intros Hrt Hv c g answer w2.
  assert (Hsrc : oidc.tokenSource c =
                 oauth2.reuseTokenSource (Some (oidc.toOAuth2 (Some seed)))
                   (oauth2.tokenRefresher (contextOf options) (configOf options)
                      (auth.RefreshToken seed))).
  { subst c. rewrite NewClient_tokenSource. apply String.eqb_neq in Hrt. rewrite Hrt.
    reflexivity. }
  rewrite Token_of_source, Hsrc, (Token_stale _ _ _ _ (cached_stale _ _ Hv)).
  cbn [oauth2.Token_]. apply String.eqb_neq in Hrt as Hrtb. rewrite Hrtb.
  unfold oauth2.retrieveToken. fold g. fold answer.
  destruct answer as [[e|tk] n'] eqn:Hanswer; cbn [fst snd] in *.
  - subst w2. cbn [snd]. rewrite <- Hsrc, client_eta. reflexivity.
  - fold (refreshed (auth.RefreshToken seed) tk).
    assert (Hkept : oauth2.RefreshToken (refreshed (auth.RefreshToken seed) tk) <> "").
    { unfold refreshed. destruct (String.eqb_spec (oauth2.RefreshToken tk) ""); cbn; assumption. }
    eexists. split; [reflexivity |]. cbn [oidc.tokenSource cachedToken].
    split; [reflexivity |]. split; [eexists _, _; split; [reflexivity | exact Hkept] |].
    intros now' w3 Hv'. rewrite Token_of_source. cbn [oidc.tokenSource oidc.httpClientTimeout].
    rewrite (Token_cached _ _ _ _ _ (cached_valid _ _ Hv')). reflexivity.
Qed.

(** X24: a client built without a seed token, or from one without a
    refresh token, asked for a token when what it holds is not valid,
    makes exactly one exchange: a client-credentials grant with the client
    id, client secret and token endpoint of the options.  If the endpoint
    answers with an error, the call returns it and the client stays as it
    was, so that the next call tries again; if it answers with a token,
    the call returns it, the client caches it, and returns it again
    without any exchange as long as it is valid. *)
Theorem credentials_exchanged_then_reused (options : auth.Options) (token : option auth.Token)
    (w : oauth2.World oauth2.N) (now : Time) (w1 : oauth2.World oauth2.N) :
  ~ refreshable token ->
  oauth2.Valid now (oidc.toOAuth2 token) = false ->
  let c := fst (oidc.NewClient options token w) in
  let g := oauth2.ClientCredentialsGrant (contextOf options) (ccConfigOf options) in
  let answer := oauth2.tokenEndpoint (oauth2.brokenAuthHeaderProviders w1) g (oauth2.net w1) in
  let w2 := afterExchange g (snd answer) w1 in
  match fst answer with
  | inl e => oidc.Token now c w1 = ((None, Some e), c, w2)
  | inr tk =>
      exists c2,
        oidc.Token now c w1 = ((Some (oidc.fromOAuth2 tk), None), c2, w2)
        /\ cachedToken (oidc.tokenSource c2) = Some tk
        /\ strategy (oidc.tokenSource c2) = ClientCredentials
        /\ forall now' w3,
             oauth2.Valid now' tk = true ->
             oidc.Token now' c2 w3 = ((Some (oidc.fromOAuth2 tk), None), c2, w3)
  end.
Proof.
  intros Hseed Hv c g answer w2.
  assert (Hsrc : oidc.tokenSource c =
                 oauth2.reuseTokenSource (Some (oidc.toOAuth2 token))
                   (oauth2.ccTokenSource (contextOf options) (ccConfigOf options))).
  { subst c. rewrite NewClient_tokenSource. rewrite refreshable_iff in Hseed.
    destruct token as [tk|]; [| reflexivity].
    destruct (String.eqb (auth.RefreshToken tk) ""); [reflexivity | contradiction]. }
  rewrite Token_of_source, Hsrc, (Token_stale _ _ _ _ (cached_stale _ _ Hv)).
  cbn [oauth2.Token_]. unfold oauth2.retrieveToken. fold g. fold answer.
  destruct answer as [[e|tk] n'] eqn:Hanswer; cbn [fst snd] in *.
  - subst w2. cbn [snd]. rewrite <- Hsrc, client_eta. reflexivity.
  - eexists. split; [reflexivity |]. cbn [oidc.tokenSource cachedToken strategy].
    split; [reflexivity |]. split; [reflexivity |].
    intros now' w3 Hv'. rewrite Token_of_source. cbn [oidc.tokenSource oidc.httpClientTimeout].
    rewrite (Token_cached _ _ _ _ _ (cached_valid _ _ Hv')). reflexivity.
Qed.

End SeededClients.

(** ** The further properties on the scripted environment *)

Section OnSampleMore.
Import Sample SampleResources.

Ltac answered_here :=
  unfold answered; eexists _, _, _;
  split; [reflexivity |]; split; [reflexivity |]; split; [vm_compute; reflexivity |];
  split; [reflexivity | vm_compute; reflexivity].

(** One request answered with 200: the world is left with an empty script. *)
Lemma Call_sends_one_request_witness :
  smclient.config client = Some (smclient.mkClientConfig "https://sm.example.com" "" "" false)
  /\ smclient.httpClient client = Some None
  /\ snd (smclient.Call client http.MethodGet "/v1/platforms" None None
            (world [] [answer 200 "platform-1"])) = world [] [].
Proof.
  split; [reflexivity |]. split; [reflexivity |].
  pose proof (Call_sends_one_request (H := env) client http.MethodGet "/v1/platforms" None None
                (world [] [answer 200 "platform-1"])
                (smclient.mkClientConfig "https://sm.example.com" "" "" false) None
                eq_refl eq_refl) as Hsent.
  cbv zeta in Hsent. destruct Hsent as [Hworld _]; [vm_compute; reflexivity |].
  rewrite Hworld. vm_compute. reflexivity.
Defined.

(** A client whose URL is empty, asked for the empty path. *)
Lemma Call_bad_url_sends_nothing_witness :
  smclient.Call (smclient.NewClient (H := env) (Some None) "") http.MethodGet "" None None
    (world [] [answer 200 "platform-1"])
  = (smclient.Return (None, Some (ErrExternal "empty url")), world [] [answer 200 "platform-1"]).
Proof.
  apply (Call_bad_url_sends_nothing (H := env) (smclient.NewClient (H := env) (Some None) "")
           http.MethodGet "" None None (world [] [answer 200 "platform-1"])
           (smclient.mkClientConfig "" "" "" false)).
  - reflexivity.
  - vm_compute. reflexivity.
Defined.

(** A creation answered with 400 and a body that has the error member only. *)
Lemma Call_error_fields_witness :
  smclient.Call client http.MethodPost "/v1/platforms" (Some "platform") None
    (world [] [answer 400 "error=bad_request"])
  = (smclient.Return
       (None, Some (ErrResponse {| errors.StatusCode := 400;
                                   errors.URL := "https://sm.example.com/v1/platforms";
                                   errors.ErrorMessage := "bad_request";
                                   errors.Description := "" |})), world [] []).
Proof.
  etransitivity.
  - apply (Call_error_fields (H := env) client http.MethodPost "/v1/platforms" (Some "platform")
             None (world [] [answer 400 "error=bad_request"]) (world [] [])
             "https://sm.example.com/v1/platforms"
             {| http.RespStatusCode := 400; http.RespBody := "error=bad_request" |}
             (<["error" := json.String "bad_request"]> ∅)).
    + answered_here.
    + right. reflexivity.
    + reflexivity.
  - vm_compute. reflexivity.
Defined.

(** A listing answered with 200. *)
Lemma Call_result_cases_witness :
  exists resp,
    Some {| http.RespStatusCode := 200; http.RespBody := "platform-1" |} = Some resp
    /\ 200 <= http.RespStatusCode resp <= 299.
Proof.
  destruct (Call_result_cases (H := env) client http.MethodGet "/v1/platforms" None None
              (world [] [answer 200 "platform-1"]) (world [] [])
              (Some {| http.RespStatusCode := 200; http.RespBody := "platform-1" |}) None)
    as (_ & Hok & _).
  - vm_compute. reflexivity.
  - apply Hok. reflexivity.
Defined.

(** A registration whose request meets a refused connection. *)
Lemma operations_return_Call_error_witness :
  smclient.register client "platform" "/v1/platforms" None (None : option string) (world [] [])
  = (smclient.Return (None, Some (ErrExternal "connection refused")), world [] []).
Proof.
  destruct (operations_return_Call_error (H := env) (R := string) (T := option string)
              client None (world [] []) (world [] []) "platform" "/v1/platforms" ""
              "platform" None None (ErrExternal "connection refused") eq_refl)
    as [Hregister _].
  apply Hregister. vm_compute. reflexivity.
Defined.

(** A registration whose resource does not marshal, on a scripted server
    that would have answered. *)
Lemma marshal_failure_sends_nothing_witness :
  smclient.register (H := env) (H0 := marshalFails) client "platform" "/v1/platforms" None
    (None : option string) (world [] [answer 201 "platform-1"])
  = (smclient.Return (None, Some (ErrExternal "json: unsupported value")),
     world [] [answer 201 "platform-1"]).
Proof.
  destruct (marshal_failure_sends_nothing (H := env) (H0 := marshalFails) (T := option string)
              client None (world [] [answer 201 "platform-1"]) "platform" "/v1/platforms" ""
              None (ErrExternal "json: unsupported value") eq_refl) as [Hregister _].
  exact Hregister.
Defined.

(** An info call answered with 200. *)
Lemma GetInfo_exactly_one_witness :
  exactlyOne (Some (types.mkInfo "https://uaa.example.com"), None : option error).
Proof.
  apply (GetInfo_exactly_one (H := env) client None
           (world [] [answer 200 "https://uaa.example.com"]) (world [] [])).
  vm_compute. reflexivity.
Defined.

Lemma GetInfo_status_mapping_witness :
  smclient.GetInfo client None (world [] [answer 200 "https://uaa.example.com"])
  = (smclient.Return (Some (types.mkInfo "https://uaa.example.com"), None), world [] []).
Proof.
  destruct (GetInfo_status_mapping (H := env) client None
              (world [] [answer 200 "https://uaa.example.com"]) (world [] [])
              "https://sm.example.com/v1/info"
              {| http.RespStatusCode := 200; http.RespBody := "https://uaa.example.com" |})
    as [Hok _]; [answered_here |].
  etransitivity; [apply Hok; reflexivity | vm_compute; reflexivity].
Defined.

(** One offering, its plans and its broker listed in turn. *)
Lemma ListOfferings_returns_with_parameters_witness :
  exists r w',
    smclient.ListOfferings client (Some (query.mkParameters [] []))
      (world [] [answer 200 "offering-1"; answer 200 "plan-1"; answer 200 "broker-1"])
    = (smclient.Return r, w') /\ exactlyOne r.
Proof.
  apply (ListOfferings_returns_with_parameters (H := env) client); discriminate.
Defined.

Lemma ListOfferings_keeps_offerings_witness :
  exists listed w1,
    smclient.list client (types.mkServiceOfferings []) smclient.ServiceOfferingsURL
      (Some (query.mkParameters [] []))
      (world [] [answer 200 "offering-1"; answer 200 "plan-1"; answer 200 "broker-1"])
    = (smclient.Return (listed, None), w1)
    /\ (None : option error) = None
    /\ length [types.mkServiceOffering "offering-1" "broker-1" "broker-1" ["plan-1"]]
       = length (types.ServiceOfferings_ listed)
    /\ ["offering-1"] = map types.ID (types.ServiceOfferings_ listed)
    /\ ["broker-1"] = map types.BrokerID (types.ServiceOfferings_ listed).
Proof.
  apply (ListOfferings_keeps_offerings (H := env) client (Some (query.mkParameters [] []))
           (world [] [answer 200 "offering-1"; answer 200 "plan-1"; answer 200 "broker-1"])
           (world [] [])
           (types.mkServiceOfferings
              [types.mkServiceOffering "offering-1" "broker-1" "broker-1" ["plan-1"]])
           None).
  vm_compute. reflexivity.
Defined.

(** A server without offerings, asked with nil parameters. *)
Lemma ListOfferings_no_offerings_witness :
  smclient.ListOfferings offeringsClient None (world [] [answer 200 "none"; answer 200 "unused"])
  = (smclient.Return (Some (types.mkServiceOfferings []), None),
     world [] [answer 200 "unused"]).
Proof.
  apply (ListOfferings_no_offerings (H := envNoOfferings) offeringsClient None).
  - vm_compute. reflexivity.
  - reflexivity.
Defined.


(** A broker registered and answered with 201. *)
Lemma Broker_wrappers_status_mapping_witness :
  smclient.RegisterBroker client (Some (types.mkBroker "broker-1")) None
    (world [] [answer 201 "broker-1"])
  = (smclient.Return (Some (types.mkBroker "broker-1"), None), world [] []).
Proof.
  destruct (Broker_wrappers_status_mapping (H := env) client None
              (world [] [answer 201 "broker-1"]) (world [] []) "" "broker-1"
              "https://sm.example.com/v1/service_brokers" (Some (types.mkBroker "broker-1"))
              {| http.RespStatusCode := 201; http.RespBody := "broker-1" |} eq_refl)
    as [Hregister _].
  destruct Hregister as [Hcreated _]; [answered_here |].
  etransitivity; [apply Hcreated; reflexivity | vm_compute; reflexivity].
Defined.

(** A seed that expires at 1000, asked for at 500 and at 2000. *)
Lemma refreshable_seed_returned_while_valid_witness :
  let c := fst (oidc.NewClient options (Some refreshableSeed) (world [] [])) in
  oidc.Token 500 c (world [] []) = ((Some refreshableSeed, None), c, world [] []).
Proof.
  apply (refreshable_seed_returned_while_valid (H := oauthEnv) options refreshableSeed
           (world [] []) 500 (world [] [])).
  - discriminate.
  - reflexivity.
Defined.

Lemma stale_seed_is_refreshed_witness :
  let c := fst (oidc.NewClient options (Some refreshableSeed) (world [] [])) in
  exists c2 w2,
    oidc.Token 2000 c (world [inr issued] [])
    = ((Some {| auth.AccessToken := "access-2"; auth.RefreshToken := "refresh-1";
                auth.ExpiresIn := 5000; auth.TokenType := "bearer" |}, None), c2, w2)
    /\ oauth2.exchanges w2
       = [oauth2.RefreshTokenGrant (contextOf options) (configOf options) "refresh-1"].
Proof.
  intros c.
  pose proof (stale_seed_is_refreshed (H := oauthEnv) options refreshableSeed (world [] [])
                2000 (world [inr issued] [])) as Hrefresh.
  cbv zeta in Hrefresh.
  destruct Hrefresh as (c2 & Htoken & _); [discriminate | reflexivity |].
  eexists c2, _. split; [exact Htoken | reflexivity].
Defined.

(** No seed, and an endpoint that issues a token. *)
Lemma credentials_exchanged_then_reused_witness :
  let c := fst (oidc.NewClient options None (world [] [])) in
  exists c2 w2,
    oidc.Token 100 c (world [inr issued] [])
    = ((Some {| auth.AccessToken := "access-2"; auth.RefreshToken := "";
                auth.ExpiresIn := 5000; auth.TokenType := "bearer" |}, None), c2, w2)
    /\ oauth2.exchanges w2
       = [oauth2.ClientCredentialsGrant (contextOf options) (ccConfigOf options)].
Proof.
  intros c.
  pose proof (credentials_exchanged_then_reused (H := oauthEnv) options None (world [] [])
                100 (world [inr issued] [])) as Hexchange.
  cbv zeta in Hexchange.
  destruct Hexchange as (c2 & Htoken & _);
    [intros (tk & Habsent & _); discriminate | reflexivity |].
  eexists c2, _. split; [exact Htoken | reflexivity].
Defined.

End OnSampleMore.
